(** * YouTube Video Trimmer API: a shallow embedding of [main.py]

    The service is glue around two external tools (yt-dlp and ffmpeg).
    The embedding keeps the Python control flow: exceptions are an
    explicit outcome, the file system and the log of external-tool calls
    are threaded through a small state-and-exception monad, and the tools
    (with the few interpreter facts the code depends on) are fields of an
    [environment] record, so every result holds for all behaviours of the
    tools.

    What the model fixes:
    - one request is followed from start to end; requests racing on the
      output directory are not modelled;
    - strings are [string]s whose characters are code points below 256;
    - the metadata of the extraction tool holds [None], integers and
      strings (a duration is a whole number of seconds);
    - a directory entry carries the time [os.path.getctime] reports for
      it, which is what the code sorts by, and whether [os.remove]
      succeeds on it;
    - paths are joined as on a POSIX host. *)

From Stdlib Require Import ZArith NArith Ascii String List.
From stdpp Require Import gmap strings list sorting pretty.

Local Open Scope string_scope.
Local Open Scope list_scope.
Local Open Scope Z_scope.

(** ** Python values, exceptions and outcomes *)

(** The values the metadata dictionary of the extraction tool holds. *)
Inductive pyval :=
| PNone
| PInt (z : Z)
| PStr (s : string).

Inductive exc_class :=
| ValueError
| TypeError
| AttributeError
| FileNotFoundError
| OSError
| Exception_        (* a plain [Exception(...)] *)
| ToolError.        (* whatever exception class an external tool raises *)

(** An exception in flight.  [PyErr c msg] is an exception of class [c]
    with [str(e) = msg]; [HTTPException] is the framework's response
    exception. *)
Inductive exn :=
| PyErr (cls : exc_class) (msg : string)
| HTTPException (status_code : Z) (detail : string).

Inductive outcome (A : Type) :=
| Return (a : A)
| Raise (e : exn).
Arguments Return {A} a.
Arguments Raise {A} e.

(** [str(e)] as used by the [except Exception as e] handlers. *)
Definition exn_str (e : exn) : string :=
  match e with
  | PyErr _ msg => msg
  | HTTPException sc d => pretty sc +:+ ": " +:+ d
  end.

(** The status the framework answers with when [e] leaves an endpoint:
    the code of an [HTTPException], 500 for anything unhandled. *)
Definition exn_status (e : exn) : Z :=
  match e with
  | HTTPException sc _ => sc
  | PyErr _ _ => 500
  end.

(** Failures of built-in operations; their wording depends on the
    interpreter version and is supplied by the environment. *)
Inductive builtin_error :=
| InvalidLiteral (field : string)          (* int("x") *)
| NotEnoughValues (expected got : nat)     (* a, b, c = it  with it too short *)
| TooManyValues (expected : nat)           (* a, b, c = it  with it too long *)
| GtNotSupported (right : pyval)           (* int > None, int > str *)
| NoneHasNoGet                             (* None.get(...) *)
| NoSuchDirectory (path : string).         (* os.listdir of a missing path *)

(** ** [int(str)] *)

Definition code (c : ascii) : N := N_of_ascii c.

(** The characters [int] skips as white space, below code point 256: the
    ASCII white space and, outside ASCII, NEL and the no-break space. *)
Definition is_space (c : ascii) : bool :=
  let n := code c in
  ((9 <=? n) && (n <=? 13) || (n =? 32) || (n =? 133) || (n =? 160))%N.

Definition digit_value (c : ascii) : option N :=
  let n := code c in
  if ((48 <=? n) && (n <=? 57))%N then Some (n - 48)%N else None.

Definition is_underscore (c : ascii) : bool := (code c =? 95)%N.

Fixpoint skip_spaces (s : string) : string :=
  match s with
  | String c r => if is_space c then skip_spaces r else s
  | EmptyString => s
  end.

Inductive prev_char := AtStart | AfterDigit | AfterUnderscore.

(** The digit loop of the interpreter's string-to-integer conversion:
    consumes digits and single underscores, accumulating the value and
    the number of digits; an underscore directly after an underscore, or
    as the last consumed character, is an error. *)
Fixpoint scan_digits (s : string) (prev : prev_char) (acc digits : N)
  : option (N * N * string) :=
  let stop := match prev with
              | AfterUnderscore => None
              | _ => Some (acc, digits, s)
              end in
  match s with
  | EmptyString => stop
  | String c r =>
      if is_underscore c then
        match prev with
        | AfterUnderscore => None
        | _ => scan_digits r AfterUnderscore acc digits
        end
      else
        match digit_value c with
        | Some d => scan_digits r AfterDigit (acc * 10 + d)%N (digits + 1)%N
        | None => stop
        end
  end.

(** Sign of a literal: the optional [+] or [-] and what follows it. *)
Definition take_sign (s : string) : bool * string :=
  match s with
  | String c r =>
      if (code c =? 45)%N then (true, r)
      else if (code c =? 43)%N then (false, r)
      else (false, s)
  | EmptyString => (false, s)
  end.

Definition starts_with_underscore (s : string) : bool :=
  match s with
  | String c _ => is_underscore c
  | EmptyString => false
  end.

(** [py_int limit s] is [int(s)]: [None] stands for the [ValueError].
    [limit] is the interpreter's [int_max_str_digits] (0 switches the
    check off); literals of at most 640 digits are never checked. *)
Definition py_int (limit : N) (s : string) : option Z :=
  let '(neg, body) := take_sign (skip_spaces s) in
  if starts_with_underscore body then None
  else
    match scan_digits body AtStart 0 0 with
    | None => None
    | Some (v, digits, rest) =>
        if (digits =? 0)%N then None
        else if ((640 <? digits) && (0 <? limit) && (limit <? digits))%N then None
        else
          match skip_spaces rest with
          | EmptyString => Some (if neg then - Z.of_N v else Z.of_N v)
          | String _ _ => None
          end
    end.

(** ** [str.split(sep)] for a one-character separator *)

Fixpoint split (sep : ascii) (s : string) : list string :=
  match s with
  | EmptyString => [EmptyString]
  | String c r =>
      if Ascii.eqb c sep then EmptyString :: split sep r
      else
        match split sep r with
        | f :: fs => String c f :: fs
        | [] => [String c EmptyString]
        end
  end.

Definition startswith (s p : string) : bool := String.prefix p s.

(** [os.path.join a b] on a POSIX host. *)
Definition path_join (a b : string) : string :=
  if startswith b "/" then b
  else if String.eqb a "" then b
  else if startswith (String.rev a) "/" then a +:+ b
  else a +:+ "/" +:+ b.


(** ** The file system, the tools and the environment *)

(** One entry of a directory: its name, what [os.path.getctime] reports
    for it (in any unit; only the order matters to the code), and whether
    [os.remove] succeeds on it (it fails on a sub-directory or without
    permission). *)
Record dirent := Dirent { d_name : string; d_ctime : Z; d_removable : bool }.

(** The directories present, each with its entries in [os.listdir]
    order. *)
Abbreviation filesystem := (gmap string (list dirent)).

(** Calls to the external tools, in the order they are made. *)
Inductive event :=
| ExtractInfo (url : string)                     (* ydl.extract_info(url, download=False) *)
| Download (url outtmpl : string)                (* ydl.download([url]) *)
| FfmpegRun (input output : string) (ss t : Z).  (* ffmpeg.run(stream, ...) *)

(** What a call to a tool does: it returns, or raises an exception whose
    [str] is [text]. *)
Inductive tool_result (A : Type) :=
| Done (a : A)
| Fails (text : string).
Arguments Done {A} a.
Arguments Fails {A} text.

Record environment := Environment {
  int_max_str_digits : N;
  error_text : builtin_error -> string;
  gettempdir : string;
  (** [datetime.now().strftime("%Y%m%d_%H%M%S")] *)
  strftime_now : string;
  (** the path [tempfile.TemporaryDirectory()] creates *)
  mkdtemp : filesystem -> string;
  (** the metadata probe: [None] is what the tool returns for a
      swallowed extraction error ([ignoreerrors]) *)
  extract_info : string -> tool_result (option (gmap string pyval));
  ydl_download : string -> string -> filesystem -> tool_result unit * filesystem;
  ffmpeg_run : string -> string -> Z -> Z -> filesystem -> tool_result unit * filesystem;
}.

Record state := State { st_fs : filesystem; st_log : list event }.

(** ** The state-and-exception monad *)

Definition M (A : Type) : Type := state -> outcome A * state.

Definition ret {A} (a : A) : M A := fun st => (Return a, st).
Definition raise {A} (e : exn) : M A := fun st => (Raise e, st).
Definition bind {A B} (c : M A) (k : A -> M B) : M B := fun st =>
  match c st with
  | (Return a, st') => k a st'
  | (Raise e, st') => (Raise e, st')
  end.
Definition lift {A} (o : outcome A) : M A := fun st => (o, st).

Notation "x <- c ;; k" := (bind c (fun x => k))
  (at level 100, c at next level, right associativity).
Notation "c ;;; k" := (bind c (fun _ => k))
  (at level 100, k at level 200, right associativity).

(** [try: body except <catches> as e: handler e] *)
Definition try_except {A} (body : M A) (catches : exn -> bool)
  (handler : exn -> M A) : M A := fun st =>
  match body st with
  | (Raise e, st') => if catches e then handler e st' else (Raise e, st')
  | r => r
  end.

Definition except_ValueError (e : exn) : bool :=
  match e with
  | PyErr ValueError _ => true
  | _ => false
  end.

(** [except Exception] and the bare [except:] catch every exception of
    the model. *)
Definition except_Exception (e : exn) : bool := true.

Definition log_event (ev : event) (st : state) : state :=
  {| st_fs := st_fs st; st_log := st_log st ++ [ev] |}.

Definition set_fs (fs : filesystem) (st : state) : state :=
  {| st_fs := fs; st_log := st_log st |}.

(** ** The program *)

Record VideoRequest := { url : string; start_time : string; end_time : string }.

(** The dictionary [get_video_info] returns. *)
Record video_info := { title : pyval; duration : pyval; thumbnail : pyval }.

Record FileResponse := { path : string; media_type : string; filename : string }.

Section Program.

Context (E : environment).

Definition builtin_raise {A} (cls : exc_class) (err : builtin_error) : outcome A :=
  Raise (PyErr cls (error_text E err)).

(** [int(field)] as one pull from the iterator [map(int, fields)]. *)
Definition int_of_field (field : string) : outcome Z :=
  match py_int (int_max_str_digits E) field with
  | Some v => Return v
  | None => builtin_raise ValueError (InvalidLiteral field)
  end.

(** [h, m, s = map(int, fields)]: the unpacking pulls the items one at a
    time, each pull converting the next field, and after the third item
    pulls once more to see that the iterator is exhausted. *)
Definition unpack3_map_int (fields : list string) : outcome (Z * Z * Z) :=
  match fields with
  | [] => builtin_raise ValueError (NotEnoughValues 3 0)
  | f1 :: r1 =>
    match int_of_field f1 with
    | Raise e => Raise e
    | Return h =>
      match r1 with
      | [] => builtin_raise ValueError (NotEnoughValues 3 1)
      | f2 :: r2 =>
        match int_of_field f2 with
        | Raise e => Raise e
        | Return m =>
          match r2 with
          | [] => builtin_raise ValueError (NotEnoughValues 3 2)
          | f3 :: r3 =>
            match int_of_field f3 with
            | Raise e => Raise e
            | Return s =>
              match r3 with
              | [] => Return (h, m, s)
              | f4 :: _ =>
                match int_of_field f4 with
                | Raise e => Raise e
                | Return _ => builtin_raise ValueError (TooManyValues 3)
                end
              end
            end
          end
        end
      end
    end
  end.

Definition time_to_seconds (time_str : string) : outcome Z :=
  match unpack3_map_int (split ":" time_str) with
  | Return (h, m, s) => Return (h * 3600 + m * 60 + s)
  | Raise e => Raise e
  end.

(** [info.get(key, dflt)] where [info] is a dictionary or [None]. *)
Definition info_get (info : option (gmap string pyval)) (key : string)
  (dflt : pyval) : M pyval :=
  match info with
  | Some d => ret (default dflt (d !! key))
  | None => lift (builtin_raise AttributeError NoneHasNoGet)
  end.

Definition call_extract_info (u : string) : M (option (gmap string pyval)) :=
  fun st =>
    let st' := log_event (ExtractInfo u) st in
    match extract_info E u with
    | Done info => (Return info, st')
    | Fails text => (Raise (PyErr ToolError text), st')
    end.

Definition get_video_info (u : string) : M video_info :=
  try_except
    (info <- call_extract_info u ;;
     t <- info_get info "title" (PStr "Unknown Title") ;;
     d <- info_get info "duration" (PInt 0) ;;
     th <- info_get info "thumbnail" (PStr "") ;;
     ret {| title := t; duration := d; thumbnail := th |})
    except_Exception
    (fun e => raise (HTTPException 400
                       ("Error fetching video info: " +:+ exn_str e))).

(** [n > v] for an [int] [n]. *)
Definition int_gt (n : Z) (v : pyval) : outcome bool :=
  match v with
  | PInt d => Return (d <? n)
  | _ => builtin_raise TypeError (GtNotSupported v)
  end.

(** [str(v)], as an f-string renders a value. *)
Definition py_str (v : pyval) : string :=
  match v with
  | PNone => "None"
  | PInt z => pretty z
  | PStr s => s
  end.

(** [with tempfile.TemporaryDirectory() as temp_dir: body]: the directory
    is created empty and removed with its contents on every exit. *)
Definition with_TemporaryDirectory {A} (body : string -> M A) : M A :=
  fun st =>
    let temp_dir := mkdtemp E (st_fs st) in
    let '(r, st') := body temp_dir (set_fs (<[temp_dir := []]> (st_fs st)) st) in
    (r, set_fs (delete temp_dir (st_fs st')) st').

Definition call_download (u outtmpl : string) : M unit := fun st =>
  let '(r, fs') := ydl_download E u outtmpl (st_fs st) in
  let st' := {| st_fs := fs'; st_log := st_log st ++ [Download u outtmpl] |} in
  match r with
  | Done _ => (Return tt, st')
  | Fails text => (Raise (PyErr ToolError text), st')
  end.

Definition call_ffmpeg_run (input output : string) (ss t : Z) : M unit := fun st =>
  let '(r, fs') := ffmpeg_run E input output ss t (st_fs st) in
  let st' := {| st_fs := fs'; st_log := st_log st ++ [FfmpegRun input output ss t] |} in
  match r with
  | Done _ => (Return tt, st')
  | Fails text => (Raise (PyErr ToolError text), st')
  end.

(** [os.listdir(dir)] together with the entries' attributes. *)
Definition scandir (dir : string) : M (list dirent) := fun st =>
  match st_fs st !! dir with
  | Some entries => (Return entries, st)
  | None => (builtin_raise FileNotFoundError (NoSuchDirectory dir), st)
  end.

(** [not v] for [v] a string or [None]. *)
Definition py_not (v : option string) : bool :=
  match v with
  | None => true
  | Some s => String.eqb s ""
  end.

Definition download_and_trim_video (u start_time end_time output_path : string)
  : M unit :=
  with_TemporaryDirectory (fun temp_dir =>
    try_except
      (call_download u (path_join temp_dir "video.%(ext)s") ;;;
       listing <- scandir temp_dir ;;
       let video_file :=
         List.find (fun f => startswith f "video.") (d_name <$> listing) in
       if py_not video_file then
         raise (PyErr Exception_ "Video file not found after download")
       else
         let input_path := path_join temp_dir (default "" video_file) in
         start_seconds <- lift (time_to_seconds start_time) ;;
         end_seconds <- lift (time_to_seconds end_time) ;;
         let duration := end_seconds - start_seconds in
         call_ffmpeg_run input_path output_path start_seconds duration)
      except_Exception
      (fun e => raise (HTTPException 500
                         ("Error processing video: " +:+ exn_str e)))).

(** [sorted(entries, key=getctime)]: ascending and stable. *)
Fixpoint insert_by_ctime (x : dirent) (l : list dirent) : list dirent :=
  match l with
  | [] => [x]
  | y :: r =>
      if d_ctime x <=? d_ctime y then x :: l else y :: insert_by_ctime x r
  end.

Definition sorted_by_ctime (l : list dirent) : list dirent :=
  foldr insert_by_ctime [] l.

(** [os.remove(os.path.join(dir, name))] *)
Definition os_remove (dir name : string) : M unit := fun st =>
  match st_fs st !! dir with
  | Some entries =>
      match List.find (fun e => String.eqb (d_name e) name) entries with
      | Some e =>
          if d_removable e then
            (Return tt,
             set_fs (<[dir := filter (fun e => d_name e ≠ name) entries]>
                       (st_fs st)) st)
          else (Raise (PyErr OSError name), st)
      | None => (Raise (PyErr FileNotFoundError name), st)
      end
  | None => (Raise (PyErr FileNotFoundError name), st)
  end.

(** [for old_file in files: try: os.remove(...) except: pass] *)
Fixpoint remove_old_files (dir : string) (files : list string) : M unit :=
  match files with
  | [] => ret tt
  | old_file :: rest =>
      try_except (os_remove dir old_file) except_Exception (fun _ => ret tt) ;;;
      remove_old_files dir rest
  end.

(** [l[:-n]] for a positive [n]. *)
Definition drop_last (n : nat) {A} (l : list A) : list A :=
  take (length l - n)%nat l.

(** [os.makedirs(dir, exist_ok=True)] *)
Definition makedirs_exist_ok (dir : string) : M unit := fun st =>
  match st_fs st !! dir with
  | Some _ => (Return tt, st)
  | None => (Return tt, set_fs (<[dir := []]> (st_fs st)) st)
  end.

(** The retention pass that closes [trim_video] (keep only the last 10
    files). *)
Definition clean_up_old_files (output_dir : string) : M unit :=
  listing <- scandir output_dir ;;
  let files := d_name <$> sorted_by_ctime listing in
  if (10 <? length files)%nat
  then remove_old_files output_dir (drop_last 10 files)
  else ret tt.

(** The locals [output_dir], [output_filename] and [output_path] of
    [trim_video]. *)
Definition output_dir : string := path_join (gettempdir E) "video-trimmer".
Definition output_filename : string :=
  "trimmed_video_" +:+ strftime_now E +:+ ".mp4".
Definition output_path : string := path_join output_dir output_filename.

Definition trim_video (request : VideoRequest) : M FileResponse :=
  times <- try_except
             (start_seconds <- lift (time_to_seconds (start_time request)) ;;
              end_seconds <- lift (time_to_seconds (end_time request)) ;;
              ret (start_seconds, end_seconds))
             except_ValueError
             (fun _ => raise (HTTPException 400 "Invalid time format. Use HH:MM:SS")) ;;
  let '(start_seconds, end_seconds) := times in
  info <- get_video_info (url request) ;;
  exceeds <- lift (int_gt end_seconds (duration info)) ;;
  if exceeds : bool then
    raise (HTTPException 400
             ("End time exceeds video duration (" +:+ py_str (duration info)
              +:+ " seconds)"))
  else if start_seconds >=? end_seconds then
    raise (HTTPException 400 "Start time must be before end time")
  else
    makedirs_exist_ok output_dir ;;;
    download_and_trim_video (url request) (start_time request)
      (end_time request) output_path ;;;
    clean_up_old_files output_dir ;;;
    ret {| path := output_path; media_type := "video/mp4";
           filename := output_filename |}.

End Program.

(** ** Vocabulary of the specification *)

(** [f] is an integer field with value [v]: [int(f)] accepts it. *)
Definition integer_field (E : environment) (f : string) (v : Z) : Prop :=
  py_int (int_max_str_digits E) f = Some v.

(** A time string is well formed when it splits on [:] into exactly three
    integer fields. *)
Definition well_formed_time (E : environment) (t : string) (H M S : Z) : Prop :=
  ∃ h m s, split ":" t = [h; m; s] ∧
           integer_field E h H ∧ integer_field E m M ∧ integer_field E s S.

Definition malformed_time (E : environment) (t : string) : Prop :=
  ∀ H M S, ¬ well_formed_time E t H M S.

(** The error the endpoint answers to a malformed time. *)
Definition InvalidTimeFormat : exn :=
  HTTPException 400 "Invalid time format. Use HH:MM:SS".

(** A file named [name] exists in directory [dir]. *)
Definition file_at (fs : filesystem) (dir name : string) : Prop :=
  ∃ listing, fs !! dir = Some listing ∧ name ∈ d_name <$> listing.

(** The entries of a sorted listing that the retention pass keeps: the
    last 10. *)
Definition last10 (l : list dirent) : list dirent := drop (length l - 10)%nat l.

(** The request passes the three checks of [trim_video], its times being
    [start_seconds] and [end_seconds]. *)
Definition passes_validation (E : environment) (request : VideoRequest)
  (start_seconds end_seconds : Z) : Prop :=
  time_to_seconds E (start_time request) = Return start_seconds ∧
  time_to_seconds E (end_time request) = Return end_seconds ∧
  (∃ d n, extract_info E (url request) = Done (Some d) ∧
          default (PInt 0) (d !! "duration") = PInt n ∧
          end_seconds ≤ n) ∧
  start_seconds < end_seconds.

(** The state in which [trim_video] calls the orchestrator: the probe is
    logged and the output directory exists. *)
Definition state_before_orchestration (E : environment)
  (request : VideoRequest) (st : state) : state :=
  (makedirs_exist_ok (output_dir E) (log_event (ExtractInfo (url request)) st)).2.

(** The first name in [listing] that starts with ["video."]. *)
Definition downloaded_file (listing : list dirent) : option string :=
  List.find (fun f => startswith f "video.") (d_name <$> listing).

(** The error [download_and_trim_video] raises for the failure [msg]. *)
Definition VideoProcessingError (msg : string) : exn :=
  HTTPException 500 ("Error processing video: " +:+ msg).

(** The order [sorted] puts the entries in. *)
Definition ctime_le (a b : dirent) : Prop := d_ctime a ≤ d_ctime b.

(** An entry outlives the removal of [names]: it is not named, or
    [os.remove] fails on it. *)
Definition survives (names : list string) (e : dirent) : Prop :=
  d_removable e = false ∨ d_name e ∉ names.

Global Instance survives_dec names e : Decision (survives names e).
Proof. unfold survives. apply _. Defined.

(** The names the retention pass tries to remove: [files[:-10]]. *)
Definition stale_names (listing : list dirent) : list string :=
  drop_last 10 (d_name <$> sorted_by_ctime listing).

(** What the retention pass leaves of a listing longer than 10. *)
Definition retained (listing : list dirent) : list dirent :=
  filter (survives (stale_names listing)) listing.

Global Instance dirent_eq_dec : EqDecision dirent.
Proof. solve_decision. Defined.

(** A computation only adds to the log of tool calls. *)
Definition appends {A} (c : M A) : Prop :=
  ∀ st, ∃ l, st_log (c st).2 = st_log st ++ l.

(** The digits [ds], most significant first, as a literal and as a
    number. *)
Definition digit_char (d : N) : ascii := ascii_of_N (48 + d).

Definition digits_string (ds : list N) : string :=
  foldr (fun d s => String (digit_char d) s) EmptyString ds.

Definition decimal_value (ds : list N) : N :=
  fold_left (fun acc d => acc * 10 + d)%N ds 0%N.

(** ** Sample environments *)

Definition sample_error_text (err : builtin_error) : string :=
  match err with
  | InvalidLiteral f => "invalid literal for int() with base 10: '" +:+ f +:+ "'"
  | NotEnoughValues n got =>
      "not enough values to unpack (expected " +:+ pretty n +:+ ", got "
      +:+ pretty got +:+ ")"
  | TooManyValues n => "too many values to unpack (expected " +:+ pretty n +:+ ")"
  | GtNotSupported PNone =>
      "'>' not supported between instances of 'int' and 'NoneType'"
  | GtNotSupported _ => "'>' not supported between instances of 'int' and 'str'"
  | NoneHasNoGet => "'NoneType' object has no attribute 'get'"
  | NoSuchDirectory p => "[Errno 2] No such file or directory: '" +:+ p +:+ "'"
  end.

Definition sample_tmp : string := "/tmp/tmpk3v9x2ab".
Definition sample_url : string := "https://www.youtube.com/watch?v=abc".
Definition sample_out_name : string := "trimmed_video_20240101_120000.mp4".

(** A tool writing [name] into [dir]: the entry is created, or replaced
    when it exists. *)
Definition write_file (dir name : string) (t : Z) (fs : filesystem) : filesystem :=
  alter (fun l => filter (fun e => d_name e ≠ name) l ++ [Dirent name t true])
        dir fs.

Definition sample_env
  (probe : tool_result (option (gmap string pyval)))
  (download ffmpeg : filesystem → tool_result unit * filesystem) : environment :=
  {| int_max_str_digits := 4300;
     error_text := sample_error_text;
     gettempdir := "/tmp";
     strftime_now := "20240101_120000";
     mkdtemp := fun _ => sample_tmp;
     extract_info := fun _ => probe;
     ydl_download := fun _ _ => download;
     ffmpeg_run := fun _ _ _ _ => ffmpeg |}.

Definition probe_100s : tool_result (option (gmap string pyval)) :=
  Done (Some {[ "title" := PStr "A video"; "duration" := PInt 100 ]}).
Definition probe_no_duration : tool_result (option (gmap string pyval)) :=
  Done (Some {[ "title" := PStr "A live stream" ]}).

Definition download_ok (fs : filesystem) : tool_result unit * filesystem :=
  (Done tt, write_file sample_tmp "video.mp4" 1704110500 fs).
(** The download returns without having written a file. *)
Definition download_nothing (fs : filesystem) : tool_result unit * filesystem :=
  (Done tt, fs).
Definition download_fails (fs : filesystem) : tool_result unit * filesystem :=
  (Fails "ERROR: unable to download video data",
   write_file sample_tmp "video.mp4.part" 1704110500 fs).

Definition ffmpeg_ok (fs : filesystem) : tool_result unit * filesystem :=
  (Done tt, write_file "/tmp/video-trimmer" sample_out_name 1704110600 fs).
(** The trim tool fails after it has started writing its output. *)
Definition ffmpeg_fails_partial (fs : filesystem) : tool_result unit * filesystem :=
  (Fails "ffmpeg error (see stderr output for detail)",
   write_file "/tmp/video-trimmer" sample_out_name 1704110600 fs).

Definition sample_request (s e : string) : VideoRequest :=
  {| url := sample_url; start_time := s; end_time := e |}.

Definition empty_state : state := {| st_fs := ∅; st_log := [] |}.

(** Earlier results, [old_file 0] the oldest. *)
Definition old_file (i : nat) : dirent :=
  Dirent ("trimmed_video_20231231_0000" +:+ (if (i <? 10)%nat then "0" else "")
          +:+ pretty i +:+ ".mp4")
         (1704000000 + Z.of_nat i) true.

Definition old_files (n : nat) : list dirent := old_file <$> seq 0 n.

Definition state_with_output (listing : list dirent) : state :=
  {| st_fs := {[ "/tmp/video-trimmer" := listing ]}; st_log := [] |}.

(** An eleven-entry listing whose oldest entry is a sub-directory. *)
Definition listing_with_subdir : list dirent :=
  Dirent "archive" 1703000000 false :: old_files 10.

(** ** The remaining endpoint and the cases of a trim request *)

(** The [get_info] endpoint. *)
Definition get_info (E : environment) (u : string) : M video_info :=
  get_video_info E u.

(** The time string with fields [h], [m] and [s]. *)
Definition time_string (h m s : string) : string :=
  h +:+ ":" +:+ m +:+ ":" +:+ s.

(** The response [trim_video] builds. *)
Definition file_response (E : environment) : FileResponse :=
  {| path := output_path E; media_type := "video/mp4";
     filename := output_filename E |}.

(** The ways a call of [trim_video] from state [st] can go, each with the
    outcome and the final state. *)
Inductive trim_video_case (E : environment) (request : VideoRequest) (st : state)
  : outcome FileResponse → state → Prop :=
| case_invalid_time :
    malformed_time E (start_time request) ∨ malformed_time E (end_time request) →
    trim_video_case E request st (Raise InvalidTimeFormat) st
| case_info_error start_seconds end_seconds msg :
    time_to_seconds E (start_time request) = Return start_seconds →
    time_to_seconds E (end_time request) = Return end_seconds →
    extract_info E (url request) = Fails msg ∨
    (extract_info E (url request) = Done None ∧ msg = error_text E NoneHasNoGet) →
    trim_video_case E request st
      (Raise (HTTPException 400 ("Error fetching video info: " +:+ msg)))
      (log_event (ExtractInfo (url request)) st)
| case_duration_type start_seconds end_seconds d v :
    time_to_seconds E (start_time request) = Return start_seconds →
    time_to_seconds E (end_time request) = Return end_seconds →
    extract_info E (url request) = Done (Some d) →
    d !! "duration" = Some v →
    (∀ n, v ≠ PInt n) →
    trim_video_case E request st
      (Raise (PyErr TypeError (error_text E (GtNotSupported v))))
      (log_event (ExtractInfo (url request)) st)
| case_duration_exceeded start_seconds end_seconds d n :
    time_to_seconds E (start_time request) = Return start_seconds →
    time_to_seconds E (end_time request) = Return end_seconds →
    extract_info E (url request) = Done (Some d) →
    default (PInt 0) (d !! "duration") = PInt n →
    n < end_seconds →
    trim_video_case E request st
      (Raise (HTTPException 400
                ("End time exceeds video duration (" +:+ pretty n +:+ " seconds)")))
      (log_event (ExtractInfo (url request)) st)
| case_invalid_range start_seconds end_seconds d n :
    time_to_seconds E (start_time request) = Return start_seconds →
    time_to_seconds E (end_time request) = Return end_seconds →
    extract_info E (url request) = Done (Some d) →
    default (PInt 0) (d !! "duration") = PInt n →
    end_seconds ≤ n →
    end_seconds ≤ start_seconds →
    trim_video_case E request st
      (Raise (HTTPException 400 "Start time must be before end time"))
      (log_event (ExtractInfo (url request)) st)
| case_processing_error start_seconds end_seconds msg st2 :
    passes_validation E request start_seconds end_seconds →
    download_and_trim_video E (url request) (start_time request)
      (end_time request) (output_path E) (state_before_orchestration E request st)
    = (Raise (VideoProcessingError msg), st2) →
    trim_video_case E request st (Raise (VideoProcessingError msg)) st2
| case_output_dir_missing start_seconds end_seconds st2 :
    passes_validation E request start_seconds end_seconds →
    download_and_trim_video E (url request) (start_time request)
      (end_time request) (output_path E) (state_before_orchestration E request st)
    = (Return tt, st2) →
    st_fs st2 !! output_dir E = None →
    trim_video_case E request st
      (Raise (PyErr FileNotFoundError (error_text E (NoSuchDirectory (output_dir E)))))
      st2
| case_file_response start_seconds end_seconds st2 listing :
    passes_validation E request start_seconds end_seconds →
    download_and_trim_video E (url request) (start_time request)
      (end_time request) (output_path E) (state_before_orchestration E request st)
    = (Return tt, st2) →
    st_fs st2 !! output_dir E = Some listing →
    trim_video_case E request st (Return (file_response E))
      (clean_up_old_files E (output_dir E) st2).2.

(** A run of 1 to 640 decimal digits. *)
Definition digit_run (ds : list N) : Prop :=
  ds ≠ [] ∧ Forall (λ d, (d < 10)%N) ds ∧ (length ds ≤ 640)%nat.

(** The download leaves two candidates, the partial file listed first. *)
Definition download_two_files (fs : filesystem) : tool_result unit * filesystem :=
  (Done tt,
   write_file sample_tmp "video.mp4" 1704110501
     (write_file sample_tmp "video.f137.mp4.part" 1704110500 fs)).

(** Ten results whose times lie after that of the file a trim at
    1704110600 writes (a clock set back, or files touched later). *)
Definition later_file (i : nat) : dirent :=
  Dirent ("trimmed_video_20240102_0000" +:+ (if (i <? 10)%nat then "0" else "")
          +:+ pretty i +:+ ".mp4")
         (1704200000 + Z.of_nat i) true.

Definition later_files (n : nat) : list dirent := later_file <$> seq 0 n.

(** ** Integer literals *)

Section IntLiterals.

Lemma digit_char_facts d :
  (d < 10)%N →
  digit_value (digit_char d) = Some d ∧
  is_underscore (digit_char d) = false ∧
  is_space (digit_char d) = false ∧
  take_sign (String (digit_char d) "") = (false, String (digit_char d) "").
Proof.
  intros Hd.
  assert (d = 0 ∨ d = 1 ∨ d = 2 ∨ d = 3 ∨ d = 4 ∨ d = 5 ∨ d = 6 ∨ d = 7 ∨
          d = 8 ∨ d = 9)%N as Hcases by lia.
  repeat destruct Hcases as [->|Hcases]; try subst d; by vm_compute.
Qed.

Lemma scan_digits_digits ds : ∀ prev acc n,
  prev ≠ AfterUnderscore →
  Forall (λ d, (d < 10)%N) ds →
  scan_digits (digits_string ds) prev acc n
  = Some (fold_left (fun a d => a * 10 + d)%N ds acc,
          (n + N.of_nat (length ds))%N, "").
Proof.
  induction ds as [|d ds IH]; intros prev acc n Hprev Hall; simpl.
  - rewrite N.add_0_r. by destruct prev.
  - apply Forall_cons in Hall as [Hd Hall].
    destruct (digit_char_facts d Hd) as (-> & -> & _).
    rewrite IH by done. do 3 f_equal. lia.
Qed.

(** A run of at most 640 digits is the literal of its decimal value, and
    of the opposite value when a minus sign precedes it. *)
Lemma py_int_digits limit ds :
  ds ≠ [] → Forall (λ d, (d < 10)%N) ds → (length ds ≤ 640)%nat →
  py_int limit (digits_string ds) = Some (Z.of_N (decimal_value ds)) ∧
  py_int limit (String "-" (digits_string ds))
  = Some (- Z.of_N (decimal_value ds)).
Proof.
  intros Hne Hall Hlen. destruct ds as [|d ds]; [done|].
  pose proof Hall as Hall'. apply Forall_cons in Hall' as [Hd _].
  destruct (digit_char_facts d Hd) as (_ & Hund & Hsp & Hsign).
  assert (take_sign (digits_string (d :: ds)) = (false, digits_string (d :: ds)))
    as Hsign'.
  { simpl. simpl in Hsign. unfold take_sign in *.
    destruct (code (digit_char d) =? 45)%N; [discriminate Hsign|].
    destruct (code (digit_char d) =? 43)%N; [discriminate Hsign|]. done. }
  assert ((N.of_nat (length (d :: ds)) =? 0)%N = false) as Hnz
    by (apply N.eqb_neq; simpl; lia).
  assert ((640 <? N.of_nat (length (d :: ds)))%N = false) as Hsmall
    by (apply N.ltb_ge; lia).
  split.
  - unfold py_int.
    replace (skip_spaces (digits_string (d :: ds))) with (digits_string (d :: ds))
      by (simpl; by rewrite Hsp).
    rewrite Hsign'.
    replace (starts_with_underscore (digits_string (d :: ds))) with false
      by (simpl; by rewrite Hund).
    rewrite scan_digits_digits by done.
    rewrite N.add_0_l, Hnz, Hsmall. reflexivity.
  - unfold py_int.
    replace (skip_spaces (String "-" (digits_string (d :: ds))))
      with (String "-" (digits_string (d :: ds))) by reflexivity.
    replace (take_sign (String "-" (digits_string (d :: ds))))
      with (true, digits_string (d :: ds)) by reflexivity.
    replace (starts_with_underscore (digits_string (d :: ds))) with false
      by (simpl; by rewrite Hund).
    rewrite scan_digits_digits by done.
    rewrite N.add_0_l, Hnz, Hsmall. reflexivity.
Qed.

End IntLiterals.

(** ** The time parser *)

Section TimeParser.

Context (E : environment).

Lemma time_to_seconds_well_formed t H M S :
  well_formed_time E t H M S →
  time_to_seconds E t = Return (H * 3600 + M * 60 + S).
Proof.
  intros (h & m & s & Hsplit & Hh & Hm & Hs).
  unfold time_to_seconds, unpack3_map_int, int_of_field.
  rewrite Hsplit. unfold integer_field in *. by rewrite Hh, Hm, Hs.
Qed.

Lemma time_to_seconds_cases t :
  (∃ H M S, well_formed_time E t H M S ∧
            time_to_seconds E t = Return (H * 3600 + M * 60 + S)) ∨
  (∃ msg, time_to_seconds E t = Raise (PyErr ValueError msg)).
Proof.
  unfold time_to_seconds, unpack3_map_int, int_of_field, builtin_raise.
  destruct (split ":" t) as [|f1 [|f2 [|f3 [|f4 r]]]] eqn:Hsplit;
    try (right; eexists; reflexivity).
  - destruct (py_int _ f1); right; eexists; reflexivity.
  - destruct (py_int _ f1); [|right; eexists; reflexivity].
    destruct (py_int _ f2); right; eexists; reflexivity.
  - destruct (py_int _ f1) as [H|] eqn:H1; [|right; eexists; reflexivity].
    destruct (py_int _ f2) as [M|] eqn:H2; [|right; eexists; reflexivity].
    destruct (py_int _ f3) as [S|] eqn:H3; [|right; eexists; reflexivity].
    left. exists H, M, S. split; [|done]. by exists f1, f2, f3.
  - destruct (py_int _ f1); [|right; eexists; reflexivity].
    destruct (py_int _ f2); [|right; eexists; reflexivity].
    destruct (py_int _ f3); [|right; eexists; reflexivity].
    destruct (py_int _ f4); right; eexists; reflexivity.
Qed.

Lemma time_to_seconds_malformed t :
  malformed_time E t → ∃ msg, time_to_seconds E t = Raise (PyErr ValueError msg).
Proof.
  intros Hbad. destruct (time_to_seconds_cases t) as [(H & M & S & Hwf & _)|Hr].
  - by destruct (Hbad H M S).
  - done.
Qed.

Lemma time_to_seconds_Return t v :
  time_to_seconds E t = Return v →
  ∃ H M S, well_formed_time E t H M S ∧ v = H * 3600 + M * 60 + S.
Proof.
  intros Hv. destruct (time_to_seconds_cases t) as [(H & M & S & Hwf & Hr)|[msg Hr]].
  - exists H, M, S. split; [done|]. congruence.
  - congruence.
Qed.

(** The format check of [trim_video]: a malformed time is answered with
    [InvalidTimeFormat] before anything else happens. *)
Lemma trim_video_malformed request st :
  malformed_time E (start_time request) ∨ malformed_time E (end_time request) →
  trim_video E request st = (Raise InvalidTimeFormat, st).
Proof.
  intros Hbad. unfold trim_video, bind, try_except, lift.
  destruct (time_to_seconds_cases (start_time request))
    as [(H & M & S & Hwf & ->)|[msg ->]]; [|done].
  destruct Hbad as [Hbad|Hbad]; [by destruct (Hbad H M S)|].
  by destruct (time_to_seconds_malformed _ Hbad) as [msg ->].
Qed.

(** Once both times parse, [trim_video] goes on to the metadata probe. *)
Lemma trim_video_parsed request st start_seconds end_seconds :
  time_to_seconds E (start_time request) = Return start_seconds →
  time_to_seconds E (end_time request) = Return end_seconds →
  trim_video E request st =
    (info <- get_video_info E (url request) ;;
     exceeds <- lift (int_gt E end_seconds (duration info)) ;;
     if exceeds : bool then
       raise (HTTPException 400
                ("End time exceeds video duration (" +:+ py_str (duration info)
                 +:+ " seconds)"))
     else if start_seconds >=? end_seconds then
       raise (HTTPException 400 "Start time must be before end time")
     else
       makedirs_exist_ok (output_dir E) ;;;
       download_and_trim_video E (url request) (start_time request)
         (end_time request) (output_path E) ;;;
       clean_up_old_files E (output_dir E) ;;;
       ret {| path := output_path E; media_type := "video/mp4";
              filename := output_filename E |}) st.
Proof.
  intros Hs He. unfold trim_video at 1, bind at 1, try_except, lift, bind at 1.
  rewrite Hs. unfold bind at 1. rewrite He. reflexivity.
Qed.

End TimeParser.

(** ** The metadata probe *)

Section VideoInfo.

Context (E : environment).

Lemma get_video_info_Done u st d :
  extract_info E u = Done (Some d) →
  get_video_info E u st =
    (Return {| title := default (PStr "Unknown Title") (d !! "title");
               duration := default (PInt 0) (d !! "duration");
               thumbnail := default (PStr "") (d !! "thumbnail") |},
     log_event (ExtractInfo u) st).
Proof.
  intros Hx. unfold get_video_info, try_except, bind, call_extract_info.
  by rewrite Hx.
Qed.

Lemma get_video_info_None u st :
  extract_info E u = Done None →
  get_video_info E u st =
    (Raise (HTTPException 400
              ("Error fetching video info: " +:+ error_text E NoneHasNoGet)),
     log_event (ExtractInfo u) st).
Proof.
  intros Hx. unfold get_video_info, try_except, bind, call_extract_info.
  by rewrite Hx.
Qed.

Lemma get_video_info_Fails u st text :
  extract_info E u = Fails text →
  get_video_info E u st =
    (Raise (HTTPException 400 ("Error fetching video info: " +:+ text)),
     log_event (ExtractInfo u) st).
Proof.
  intros Hx. unfold get_video_info, try_except, bind, call_extract_info.
  by rewrite Hx.
Qed.

(** Whatever the tool does, the probe is logged once, the file system is
    untouched, and a failure is a 400. *)
Lemma get_video_info_cases u st :
  ∃ r, get_video_info E u st = (r, log_event (ExtractInfo u) st) ∧
       match r with
       | Return _ => True
       | Raise e => exn_status e = 400
       end.
Proof.
  destruct (extract_info E u) as [[d|]|text] eqn:Hx.
  - rewrite (get_video_info_Done _ _ _ Hx). by eexists.
  - rewrite (get_video_info_None _ _ Hx). by eexists.
  - rewrite (get_video_info_Fails _ _ _ Hx). by eexists.
Qed.

End VideoInfo.

(** ** The log of tool calls only grows *)

Section Appends.

Context (E : environment).

Lemma appends_ret {A} (a : A) : appends (ret a).
Proof. intros st. exists []. by rewrite app_nil_r. Qed.

Lemma appends_raise {A} e : appends (@raise A e).
Proof. intros st. exists []. by rewrite app_nil_r. Qed.

Lemma appends_lift {A} (o : outcome A) : appends (lift o).
Proof. intros st. exists []. by rewrite app_nil_r. Qed.

Lemma appends_bind {A B} (c : M A) (k : A → M B) :
  appends c → (∀ a, appends (k a)) → appends (bind c k).
Proof.
  intros Hc Hk st. unfold bind. destruct (Hc st) as [l Hl].
  destruct (c st) as [[a|e] st']; simpl in *.
  - destruct (Hk a st') as [l' Hl']. exists (l ++ l').
    by rewrite Hl', Hl, app_assoc.
  - by exists l.
Qed.

Lemma appends_try_except {A} (c : M A) catches handler :
  appends c → (∀ e, appends (handler e)) → appends (try_except c catches handler).
Proof.
  intros Hc Hh st. unfold try_except. destruct (Hc st) as [l Hl].
  destruct (c st) as [[a|e] st']; simpl in *.
  - by exists l.
  - destruct (catches e); [|by exists l].
    destruct (Hh e st') as [l' Hl']. exists (l ++ l').
    by rewrite Hl', Hl, app_assoc.
Qed.

Lemma appends_call_download u outtmpl : appends (call_download E u outtmpl).
Proof.
  intros st. unfold call_download.
  destruct (ydl_download E u outtmpl (st_fs st)) as [[[]|text] fs']; by eexists.
Qed.

Lemma appends_call_ffmpeg_run i o ss t : appends (call_ffmpeg_run E i o ss t).
Proof.
  intros st. unfold call_ffmpeg_run.
  destruct (ffmpeg_run E i o ss t (st_fs st)) as [[[]|text] fs']; by eexists.
Qed.

Lemma appends_scandir dir : appends (scandir E dir).
Proof.
  intros st. unfold scandir. exists []. rewrite app_nil_r.
  by destruct (st_fs st !! dir).
Qed.

Lemma appends_os_remove dir name : appends (os_remove dir name).
Proof.
  intros st. unfold os_remove. exists []. rewrite app_nil_r.
  destruct (st_fs st !! dir); [|done].
  destruct (List.find _ _) as [e|]; [|done]. by destruct (d_removable e).
Qed.

Lemma appends_remove_old_files dir files : appends (remove_old_files dir files).
Proof.
  induction files as [|f files IH]; simpl.
  - apply appends_ret.
  - apply appends_bind; [|done].
    apply appends_try_except; [apply appends_os_remove|].
    intros _. apply appends_ret.
Qed.

Lemma appends_makedirs dir : appends (makedirs_exist_ok dir).
Proof.
  intros st. unfold makedirs_exist_ok. exists []. rewrite app_nil_r.
  by destruct (st_fs st !! dir).
Qed.

Lemma appends_with_TemporaryDirectory {A} (body : string → M A) :
  (∀ d, appends (body d)) → appends (with_TemporaryDirectory E body).
Proof.
  intros Hb st. unfold with_TemporaryDirectory.
  destruct (Hb (mkdtemp E (st_fs st))
              (set_fs (<[mkdtemp E (st_fs st) := []]> (st_fs st)) st)) as [l Hl].
  destruct (body _ _) as [r st']. by exists l.
Qed.

Lemma appends_download_and_trim_video u s e out :
  appends (download_and_trim_video E u s e out).
Proof.
  apply appends_with_TemporaryDirectory. intros d.
  apply appends_try_except; [|intros; apply appends_raise].
  apply appends_bind; [apply appends_call_download|]. intros _.
  apply appends_bind; [apply appends_scandir|]. intros listing.
  cbv zeta. destruct (py_not _); [apply appends_raise|].
  apply appends_bind; [apply appends_lift|]. intros ss.
  apply appends_bind; [apply appends_lift|]. intros es.
  apply appends_call_ffmpeg_run.
Qed.

Lemma appends_clean_up_old_files dir : appends (clean_up_old_files E dir).
Proof.
  apply appends_bind; [apply appends_scandir|]. intros listing.
  cbv zeta. destruct (_ <? _)%nat; [apply appends_remove_old_files|apply appends_ret].
Qed.

(** A request that passes the format check reaches the metadata probe. *)
Lemma trim_video_parsed_probes request st start_seconds end_seconds :
  time_to_seconds E (start_time request) = Return start_seconds →
  time_to_seconds E (end_time request) = Return end_seconds →
  ∃ l, st_log (trim_video E request st).2
       = st_log st ++ ExtractInfo (url request) :: l.
Proof.
  intros Hs He. rewrite (trim_video_parsed E _ st _ _ Hs He).
  unfold bind at 1.
  destruct (get_video_info_cases E (url request) st) as (r & -> & _).
  destruct r as [info|e]; [|exists []; done].
  match goal with |- context [?c (log_event ?ev st)] =>
    assert (appends c) as Happ end.
  { apply appends_bind; [apply appends_lift|]. intros [].
    - apply appends_raise.
    - destruct (_ >=? _); [apply appends_raise|].
      apply appends_bind; [apply appends_makedirs|]. intros _.
      apply appends_bind; [apply appends_download_and_trim_video|]. intros _.
      apply appends_bind; [apply appends_clean_up_old_files|]. intros _.
      apply appends_ret. }
  destruct (Happ (log_event (ExtractInfo (url request)) st)) as [l Hl].
  exists l. rewrite Hl. simpl. by rewrite <- app_assoc.
Qed.

End Appends.

(** ** Validation in [trim_video] *)

Section Validation.

Context (E : environment).

(** The two checks that follow a successful probe reporting an integer
    duration [n]. *)
Lemma trim_video_checks request st start_seconds end_seconds d n :
  time_to_seconds E (start_time request) = Return start_seconds →
  time_to_seconds E (end_time request) = Return end_seconds →
  extract_info E (url request) = Done (Some d) →
  default (PInt 0) (d !! "duration") = PInt n →
  n < end_seconds ∨ end_seconds ≤ start_seconds →
  trim_video E request st =
    (Raise (HTTPException 400
              (if n <? end_seconds
               then "End time exceeds video duration (" +:+ pretty n +:+ " seconds)"
               else "Start time must be before end time")),
     log_event (ExtractInfo (url request)) st).
Proof.
  intros Hs He Hx Hd Hcase.
  rewrite (trim_video_parsed E _ st _ _ Hs He). unfold bind at 1.
  rewrite (get_video_info_Done E _ _ _ Hx). unfold bind, lift. simpl.
  rewrite Hd. simpl. destruct (n <? end_seconds) eqn:Hlt; [done|].
  apply Z.ltb_ge in Hlt. destruct Hcase as [?|Hge]; [lia|].
  by rewrite (proj2 (Z.geb_le _ _) Hge).
Qed.

(** A duration that is not an integer makes the comparison raise. *)
Lemma trim_video_duration_not_int request st start_seconds end_seconds d :
  time_to_seconds E (start_time request) = Return start_seconds →
  time_to_seconds E (end_time request) = Return end_seconds →
  extract_info E (url request) = Done (Some d) →
  (∀ n, default (PInt 0) (d !! "duration") ≠ PInt n) →
  trim_video E request st =
    (Raise (PyErr TypeError
              (error_text E (GtNotSupported (default (PInt 0) (d !! "duration"))))),
     log_event (ExtractInfo (url request)) st).
Proof.
  intros Hs He Hx Hd.
  rewrite (trim_video_parsed E _ st _ _ Hs He). unfold bind at 1.
  rewrite (get_video_info_Done E _ _ _ Hx). unfold bind, lift. simpl.
  destruct (default (PInt 0) (d !! "duration")) as [|n|s] eqn:Hdur; try done.
  by destruct (Hd n).
Qed.

End Validation.

(** ** The claims about parsing, probing and validation *)

(** C2: a time string that splits on [:] into exactly three integer
    fields parses to [H*3600 + M*60 + S] (3723 for ["01:02:03"], 0 for
    ["00:00:00"]); any other string (such as ["1:2"] or ["ab:cd:ef"])
    makes the parser raise [ValueError], which the trim endpoint answers
    with the 400 error [InvalidTimeFormat]. *)
Theorem C2_time_parser (E : environment) :
  (∀ t H M S, well_formed_time E t H M S →
              time_to_seconds E t = Return (H * 3600 + M * 60 + S)) ∧
  (∀ t, malformed_time E t →
        ∃ msg, time_to_seconds E t = Raise (PyErr ValueError msg)) ∧
  (∀ request st,
     malformed_time E (start_time request) ∨ malformed_time E (end_time request) →
     trim_video E request st = (Raise InvalidTimeFormat, st) ∧
     exn_status InvalidTimeFormat = 400) ∧
  time_to_seconds E "01:02:03" = Return 3723 ∧
  time_to_seconds E "00:00:00" = Return 0 ∧
  malformed_time E "1:2" ∧
  malformed_time E "ab:cd:ef".
Proof.
  split; [apply time_to_seconds_well_formed|].
  split; [apply time_to_seconds_malformed|].
  split; [intros request st Hbad; split; [by apply trim_video_malformed|done]|].
  split; [done|]. split; [done|].
  split; intros H M S (h & m & s & Hsplit & Hh & Hm & Hs).
  - discriminate Hsplit.
  - vm_compute in Hsplit. simplify_eq. vm_compute in Hh. discriminate Hh.
Qed.

Lemma C2_time_parser_witness :
  time_to_seconds (sample_env probe_100s download_ok ffmpeg_ok) "10:20:30"
    = Return 37230 ∧
  (∃ msg, time_to_seconds (sample_env probe_100s download_ok ffmpeg_ok) "10:20"
          = Raise (PyErr ValueError msg)) ∧
  trim_video (sample_env probe_100s download_ok ffmpeg_ok)
    (sample_request "00:00:01" "five") empty_state
    = (Raise InvalidTimeFormat, empty_state).
Proof.
  destruct (C2_time_parser (sample_env probe_100s download_ok ffmpeg_ok))
    as (Hok & Hbad & Hendpoint & _).
  split; [|split].
  - apply (Hok "10:20:30" 10 20 30). exists "10", "20", "30".
    repeat split; reflexivity.
  - apply (Hbad "10:20"). intros H M S (h & m & s & Hsplit & _).
    discriminate Hsplit.
  - apply Hendpoint. right. intros H M S (h & m & s & Hsplit & Hh & _).
    vm_compute in Hsplit. discriminate Hsplit.
Defined.

(** C9: the parser accepts a negative component: ["00:00:-5"] is well
    formed and parses to -5, so a request carrying it passes the format
    check of the trim endpoint, which goes on to the metadata probe. *)
Theorem C9_negative_component_accepted (E : environment) :
  well_formed_time E "00:00:-5" 0 0 (-5) ∧
  time_to_seconds E "00:00:-5" = Return (-5) ∧
  ∀ request st v,
    start_time request = "00:00:-5" →
    time_to_seconds E (end_time request) = Return v →
    ∃ l, st_log (trim_video E request st).2
         = st_log st ++ ExtractInfo (url request) :: l.
Proof.
  split; [by exists "00", "00", "-5"|]. split; [done|].
  intros request st v Hstart Hend.
  apply (trim_video_parsed_probes E request st (-5) v); [by rewrite Hstart|done].
Qed.

Lemma C9_negative_component_accepted_witness :
  ∃ l, st_log (trim_video (sample_env probe_100s download_ok ffmpeg_ok)
                 (sample_request "00:00:-5" "00:00:10") empty_state).2
       = ExtractInfo sample_url :: l.
Proof.
  destruct (C9_negative_component_accepted
              (sample_env probe_100s download_ok ffmpeg_ok)) as (_ & _ & Hpass).
  apply (Hpass (sample_request "00:00:-5" "00:00:10") empty_state 10);
    reflexivity.
Defined.

(** C7: when the tool returns metadata, the fetcher returns title,
    duration and thumbnail as found there, falling back to
    ["Unknown Title"], 0 and the empty string for a missing key; when the
    tool raises, the fetcher raises the 400 error whose detail wraps the
    tool's message. *)
Theorem C7_video_info_fallbacks (E : environment) (u : string) (st : state) :
  (∀ d, extract_info E u = Done (Some d) →
     ∃ info, get_video_info E u st = (Return info, log_event (ExtractInfo u) st) ∧
       (∀ v, d !! "title" = Some v → title info = v) ∧
       (d !! "title" = None → title info = PStr "Unknown Title") ∧
       (∀ v, d !! "duration" = Some v → duration info = v) ∧
       (d !! "duration" = None → duration info = PInt 0) ∧
       (∀ v, d !! "thumbnail" = Some v → thumbnail info = v) ∧
       (d !! "thumbnail" = None → thumbnail info = PStr "")) ∧
  (∀ text, extract_info E u = Fails text →
     ∃ ex, get_video_info E u st = (Raise ex, log_event (ExtractInfo u) st) ∧
           ex = HTTPException 400 ("Error fetching video info: " +:+ text) ∧
           exn_status ex = 400).
Proof.
  split.
  - intros d Hx. rewrite (get_video_info_Done E _ _ _ Hx).
    eexists. split; [reflexivity|]. simpl.
    repeat split; try (intros v ->); try (intros ->); done.
  - intros text Hx. rewrite (get_video_info_Fails E _ _ _ Hx). by eexists.
Qed.

Lemma C7_video_info_fallbacks_witness :
  (∃ info, get_video_info (sample_env probe_no_duration download_ok ffmpeg_ok)
             sample_url empty_state
           = (Return info, log_event (ExtractInfo sample_url) empty_state) ∧
           title info = PStr "A live stream" ∧ duration info = PInt 0 ∧
           thumbnail info = PStr "") ∧
  get_video_info (sample_env (Fails "ERROR: Video unavailable") download_ok ffmpeg_ok)
    sample_url empty_state
  = (Raise (HTTPException 400 "Error fetching video info: ERROR: Video unavailable"),
     log_event (ExtractInfo sample_url) empty_state).
Proof.
  split.
  - destruct (C7_video_info_fallbacks
                (sample_env probe_no_duration download_ok ffmpeg_ok)
                sample_url empty_state) as [Hdone _].
    destruct (Hdone {[ "title" := PStr "A live stream" ]} eq_refl)
      as (info & Hrun & Ht & _ & _ & Hd & _ & Hth).
    exists info. split; [exact Hrun|]. split; [|split].
    + apply Ht. reflexivity.
    + apply Hd. reflexivity.
    + apply Hth. reflexivity.
  - destruct (C7_video_info_fallbacks
                (sample_env (Fails "ERROR: Video unavailable") download_ok ffmpeg_ok)
                sample_url empty_state) as [_ Hfails].
    destruct (Hfails "ERROR: Video unavailable" eq_refl) as (ex & Hrun & -> & _).
    exact Hrun.
Defined.

(** C5: a well-formed request whose end time in seconds exceeds the
    duration obtained from the probe is answered with a 400 error, and
    the only tool call made is the metadata probe: the state after the
    call is the initial one with [ExtractInfo] logged, so nothing is
    downloaded. *)
Theorem C5_end_beyond_duration_rejected (E : environment)
  (request : VideoRequest) (st : state) (start_seconds end_seconds n : Z)
  (d : gmap string pyval) :
  time_to_seconds E (start_time request) = Return start_seconds →
  time_to_seconds E (end_time request) = Return end_seconds →
  extract_info E (url request) = Done (Some d) →
  default (PInt 0) (d !! "duration") = PInt n →
  n < end_seconds →
  trim_video E request st =
    (Raise (HTTPException 400
              ("End time exceeds video duration (" +:+ pretty n +:+ " seconds)")),
     log_event (ExtractInfo (url request)) st) ∧
  ∀ u outtmpl,
    Download u outtmpl ∈ st_log (trim_video E request st).2 →
    Download u outtmpl ∈ st_log st.
Proof.
  intros Hs He Hx Hd Hlt.
  rewrite (trim_video_checks E _ st _ _ _ _ Hs He Hx Hd (or_introl Hlt)).
  rewrite (proj2 (Z.ltb_lt _ _) Hlt). split; [done|].
  intros u outtmpl. simpl. rewrite elem_of_app, list_elem_of_singleton.
  intros [?|?]; done.
Qed.

Lemma C5_end_beyond_duration_rejected_witness :
  trim_video (sample_env probe_100s download_ok ffmpeg_ok)
    (sample_request "00:00:10" "00:02:00") empty_state
  = (Raise (HTTPException 400 "End time exceeds video duration (100 seconds)"),
     {| st_fs := ∅; st_log := [ExtractInfo sample_url] |}).
Proof.
  apply (C5_end_beyond_duration_rejected
           (sample_env probe_100s download_ok ffmpeg_ok)
           (sample_request "00:00:10" "00:02:00") empty_state 10 120 100
           {[ "title" := PStr "A video"; "duration" := PInt 100 ]});
    [reflexivity|reflexivity|reflexivity|reflexivity|lia].
Defined.

(** C10: when the metadata holds no duration, every request whose times
    are well formed and non-negative is answered with a 400 error after
    the probe alone: the duration check fires when the end is positive,
    the range check when it is 0. *)
Theorem C10_missing_duration_rejects (E : environment)
  (request : VideoRequest) (st : state) (start_seconds end_seconds : Z)
  (d : gmap string pyval) :
  time_to_seconds E (start_time request) = Return start_seconds →
  time_to_seconds E (end_time request) = Return end_seconds →
  extract_info E (url request) = Done (Some d) →
  d !! "duration" = None →
  0 ≤ start_seconds → 0 ≤ end_seconds →
  ∃ detail,
    trim_video E request st =
      (Raise (HTTPException 400 detail), log_event (ExtractInfo (url request)) st) ∧
    (0 < end_seconds → detail = "End time exceeds video duration (0 seconds)") ∧
    (end_seconds = 0 → detail = "Start time must be before end time").
Proof.
  intros Hs He Hx Hd Hs0 He0.
  assert (default (PInt 0) (d !! "duration") = PInt 0) as Hdur by by rewrite Hd.
  assert (0 < end_seconds ∨ end_seconds ≤ start_seconds) as Hcase by lia.
  rewrite (trim_video_checks E _ st _ _ _ _ Hs He Hx Hdur Hcase).
  eexists. split; [reflexivity|]. split.
  - intros Hpos. by rewrite (proj2 (Z.ltb_lt _ _) Hpos).
  - intros ->. done.
Qed.

Lemma C10_missing_duration_rejects_witness :
  ∃ detail,
    trim_video (sample_env probe_no_duration download_ok ffmpeg_ok)
      (sample_request "00:00:00" "00:00:30") empty_state
    = (Raise (HTTPException 400 detail),
       log_event (ExtractInfo sample_url) empty_state) ∧
    (0 < 30 → detail = "End time exceeds video duration (0 seconds)") ∧
    (30 = 0 → detail = "Start time must be before end time").
Proof.
  apply (C10_missing_duration_rejects
           (sample_env probe_no_duration download_ok ffmpeg_ok)
           (sample_request "00:00:00" "00:00:30") empty_state 0 30
           {[ "title" := PStr "A live stream" ]});
    [reflexivity|reflexivity|reflexivity|reflexivity|lia|lia].
Defined.

(** C1, as the code has it: a well-formed request with
    [start_seconds >= end_seconds] is rejected after the metadata probe
    and before anything else: the state after the call is the initial one
    with [ExtractInfo] logged (no download, no trim, no file written).
    The error is a 400 whenever the probe fails or the duration it
    reports is absent or an integer. *)
Theorem C1_inverted_range_rejected_after_probe (E : environment)
  (request : VideoRequest) (st : state) (start_seconds end_seconds : Z) :
  time_to_seconds E (start_time request) = Return start_seconds →
  time_to_seconds E (end_time request) = Return end_seconds →
  start_seconds >= end_seconds →
  ∃ ex,
    trim_video E request st = (Raise ex, log_event (ExtractInfo (url request)) st) ∧
    ((∀ d v, extract_info E (url request) = Done (Some d) →
             d !! "duration" = Some v → ∃ n, v = PInt n) →
     exn_status ex = 400).
Proof.
  intros Hs He Hge.
  destruct (extract_info E (url request)) as [[d|]|text] eqn:Hx.
  - destruct (default (PInt 0) (d !! "duration")) as [|n|s] eqn:Hdur.
    + rewrite (trim_video_duration_not_int E _ st _ _ _ Hs He Hx)
        by (rewrite Hdur; done).
      eexists. split; [reflexivity|]. intros Hint.
      destruct (d !! "duration") as [v|] eqn:Hv; [|done].
      destruct (Hint d v eq_refl Hv) as [n ->]. done.
    + assert (n < end_seconds ∨ end_seconds ≤ start_seconds) as Hcase by lia.
      rewrite (trim_video_checks E _ st _ _ _ _ Hs He Hx Hdur Hcase).
      by eexists.
    + rewrite (trim_video_duration_not_int E _ st _ _ _ Hs He Hx)
        by (rewrite Hdur; done).
      eexists. split; [reflexivity|]. intros Hint.
      destruct (d !! "duration") as [v|] eqn:Hv; [|done].
      destruct (Hint d v eq_refl Hv) as [n ->]. done.
  - rewrite (trim_video_parsed E _ st _ _ Hs He). unfold bind at 1.
    rewrite (get_video_info_None E _ _ Hx). by eexists.
  - rewrite (trim_video_parsed E _ st _ _ Hs He). unfold bind at 1.
    rewrite (get_video_info_Fails E _ _ _ Hx). by eexists.
Qed.

Lemma C1_inverted_range_rejected_after_probe_witness :
  ∃ ex,
    trim_video (sample_env probe_100s download_ok ffmpeg_ok)
      (sample_request "00:00:10" "00:00:05") empty_state
    = (Raise ex, log_event (ExtractInfo sample_url) empty_state) ∧
    ((∀ d v, probe_100s = Done (Some d) →
             d !! "duration" = Some v → ∃ n, v = PInt n) →
     exn_status ex = 400).
Proof.
  apply (C1_inverted_range_rejected_after_probe
           (sample_env probe_100s download_ok ffmpeg_ok)
           (sample_request "00:00:10" "00:00:05") empty_state 10 5);
    [reflexivity|reflexivity|lia].
Defined.

(** C1 as stated fails: the request is not rejected before every tool
    call, the metadata probe has been made by the time of the rejection. *)
Lemma C1_rejected_before_any_tool_counterexample :
  ¬ (∀ (E : environment) (request : VideoRequest) (st : state)
       (start_seconds end_seconds : Z),
       time_to_seconds E (start_time request) = Return start_seconds →
       time_to_seconds E (end_time request) = Return end_seconds →
       start_seconds >= end_seconds →
       ∃ detail st',
         trim_video E request st = (Raise (HTTPException 400 detail), st') ∧
         st_log st' = st_log st).
Proof.
  intros Hclaim.
  destruct (Hclaim (sample_env probe_100s download_ok ffmpeg_ok)
              (sample_request "00:00:10" "00:00:05") empty_state 10 5)
    as (detail & st' & Hrun & Hlog); [reflexivity|reflexivity|lia|].
  vm_compute in Hrun. injection Hrun as _ <-. discriminate Hlog.
Qed.

(** ** The download-and-trim orchestrator *)

Section Orchestrator.

Context (E : environment).

Lemma py_not_downloaded_file listing f :
  downloaded_file listing = Some f → py_not (Some f) = false.
Proof.
  intros Hf. apply find_some in Hf as [_ Hpre].
  destruct f as [|c f]; [discriminate Hpre|reflexivity].
Qed.

Lemma downloaded_file_None listing :
  (∀ f, f ∈ d_name <$> listing → startswith f "video." = false) →
  downloaded_file listing = None.
Proof.
  intros Hno. unfold downloaded_file.
  destruct (List.find _ _) as [f|] eqn:Hf; [|done].
  apply find_some in Hf as [Hin Hpre].
  apply list_elem_of_In in Hin. rewrite (Hno f Hin) in Hpre. discriminate.
Qed.

Lemma orchestrator_download_fails u start_time end_time out st text fs1 :
  let tmp := mkdtemp E (st_fs st) in
  let outtmpl := path_join tmp "video.%(ext)s" in
  ydl_download E u outtmpl (<[tmp := []]> (st_fs st)) = (Fails text, fs1) →
  download_and_trim_video E u start_time end_time out st =
    (Raise (VideoProcessingError text),
     {| st_fs := delete tmp fs1; st_log := st_log st ++ [Download u outtmpl] |}).
Proof.
  intros tmp outtmpl Hdl.
  unfold download_and_trim_video, with_TemporaryDirectory, try_except, bind,
    call_download.
  simpl. fold tmp. fold outtmpl. by rewrite Hdl.
Qed.

Lemma orchestrator_file_missing u start_time end_time out st fs1 listing :
  let tmp := mkdtemp E (st_fs st) in
  let outtmpl := path_join tmp "video.%(ext)s" in
  ydl_download E u outtmpl (<[tmp := []]> (st_fs st)) = (Done tt, fs1) →
  fs1 !! tmp = Some listing →
  downloaded_file listing = None →
  download_and_trim_video E u start_time end_time out st =
    (Raise (VideoProcessingError "Video file not found after download"),
     {| st_fs := delete tmp fs1; st_log := st_log st ++ [Download u outtmpl] |}).
Proof.
  intros tmp outtmpl Hdl Hls Hnone.
  unfold download_and_trim_video, with_TemporaryDirectory, try_except, bind,
    call_download, scandir.
  simpl. fold tmp. fold outtmpl. rewrite Hdl. simpl. rewrite Hls.
  unfold downloaded_file in Hnone. by rewrite Hnone.
Qed.

Lemma orchestrator_trims u start_time end_time out st fs1 listing video_file
  start_seconds end_seconds r fs2 :
  let tmp := mkdtemp E (st_fs st) in
  let outtmpl := path_join tmp "video.%(ext)s" in
  ydl_download E u outtmpl (<[tmp := []]> (st_fs st)) = (Done tt, fs1) →
  fs1 !! tmp = Some listing →
  downloaded_file listing = Some video_file →
  time_to_seconds E start_time = Return start_seconds →
  time_to_seconds E end_time = Return end_seconds →
  ffmpeg_run E (path_join tmp video_file) out start_seconds
    (end_seconds - start_seconds) fs1 = (r, fs2) →
  download_and_trim_video E u start_time end_time out st =
    (match r with
     | Done _ => Return tt
     | Fails text => Raise (VideoProcessingError text)
     end,
     {| st_fs := delete tmp fs2;
        st_log := st_log st ++
                  [Download u outtmpl;
                   FfmpegRun (path_join tmp video_file) out start_seconds
                     (end_seconds - start_seconds)] |}).
Proof.
  intros tmp outtmpl Hdl Hls Hsome Hs He Hff.
  pose proof (py_not_downloaded_file _ _ Hsome) as Hnot.
  unfold download_and_trim_video, with_TemporaryDirectory, try_except, bind,
    call_download, scandir, call_ffmpeg_run, lift.
  simpl. fold tmp. fold outtmpl. rewrite Hdl. simpl. rewrite Hls.
  unfold downloaded_file in Hsome. rewrite Hsome, Hnot. simpl.
  rewrite Hs, He, Hff. simpl. rewrite <- app_assoc. by destruct r.
Qed.

(** The call ends in one of two ways, and in both the temporary
    directory is gone. *)
Lemma orchestrator_outcomes u start_time end_time out st :
  ((download_and_trim_video E u start_time end_time out st).1 = Return tt ∨
   ∃ msg, (download_and_trim_video E u start_time end_time out st).1
          = Raise (VideoProcessingError msg)) ∧
  st_fs (download_and_trim_video E u start_time end_time out st).2
    !! mkdtemp E (st_fs st) = None.
Proof.
  unfold download_and_trim_video, with_TemporaryDirectory.
  destruct (try_except _ _ _ _) as [r st'] eqn:Hbody. simpl.
  split; [|apply lookup_delete_eq].
  unfold try_except in Hbody.
  destruct (bind _ _ _) as [[[]|e] st''] in Hbody; simplify_eq; simpl; eauto.
  injection Hbody as <- _. eauto.
Qed.

End Orchestrator.

(** ** From validation to the orchestrator *)

Section Pipeline.

Context (E : environment).

Lemma makedirs_exist_ok_Return dir st :
  makedirs_exist_ok dir st = (Return tt, (makedirs_exist_ok dir st).2).
Proof. unfold makedirs_exist_ok. by destruct (st_fs st !! dir). Qed.

Lemma trim_video_validated request st start_seconds end_seconds :
  passes_validation E request start_seconds end_seconds →
  trim_video E request st =
    (download_and_trim_video E (url request) (start_time request)
       (end_time request) (output_path E) ;;;
     clean_up_old_files E (output_dir E) ;;;
     ret {| path := output_path E; media_type := "video/mp4";
            filename := output_filename E |})
      (state_before_orchestration E request st).
Proof.
  intros (Hs & He & (d & n & Hx & Hd & Hle) & Hlt).
  rewrite (trim_video_parsed E _ st _ _ Hs He). unfold bind at 1.
  rewrite (get_video_info_Done E _ _ _ Hx). unfold bind at 1, lift. simpl.
  rewrite Hd. simpl.
  rewrite (proj2 (Z.ltb_ge _ _) Hle).
  assert ((start_seconds >=? end_seconds) = false) as ->.
  { rewrite Z.geb_leb. apply Z.leb_gt. lia. }
  unfold bind at 1. by rewrite makedirs_exist_ok_Return.
Qed.

(** A failure of the orchestrator leaves [trim_video] as it is: no
    retention pass, no file response. *)
Lemma trim_video_orchestrator_raises request st start_seconds end_seconds ex st2 :
  passes_validation E request start_seconds end_seconds →
  download_and_trim_video E (url request) (start_time request)
    (end_time request) (output_path E) (state_before_orchestration E request st)
  = (Raise ex, st2) →
  trim_video E request st = (Raise ex, st2).
Proof.
  intros Hval Hrun. rewrite (trim_video_validated _ st _ _ Hval).
  unfold bind at 1. by rewrite Hrun.
Qed.

Lemma trim_video_orchestrator_returns request st start_seconds end_seconds st2 :
  passes_validation E request start_seconds end_seconds →
  download_and_trim_video E (url request) (start_time request)
    (end_time request) (output_path E) (state_before_orchestration E request st)
  = (Return tt, st2) →
  trim_video E request st =
    (clean_up_old_files E (output_dir E) ;;;
     ret {| path := output_path E; media_type := "video/mp4";
            filename := output_filename E |}) st2.
Proof.
  intros Hval Hrun. rewrite (trim_video_validated _ st _ _ Hval).
  unfold bind at 1. by rewrite Hrun.
Qed.

End Pipeline.

(** ** The claims about the orchestrator *)

(** C4, as the code has it: when the download or the trim tool raises,
    the trim endpoint raises [VideoProcessingError], a 500 whose detail
    carries the text of the raised exception; no file response is
    returned and the retention pass does not run.  The file system is
    left as the failing tool left it, less the temporary directory: the
    code neither writes nor cleans the output path. *)
Theorem C4_tool_failure_surfaced (E : environment) (request : VideoRequest)
  (st : state) (start_seconds end_seconds : Z) :
  passes_validation E request start_seconds end_seconds →
  let st1 := state_before_orchestration E request st in
  let tmp := mkdtemp E (st_fs st1) in
  let outtmpl := path_join tmp "video.%(ext)s" in
  (∀ msg, exn_status (VideoProcessingError msg) = 500) ∧
  (∀ text fs1,
     ydl_download E (url request) outtmpl (<[tmp := []]> (st_fs st1))
       = (Fails text, fs1) →
     trim_video E request st =
       (Raise (VideoProcessingError text),
        {| st_fs := delete tmp fs1;
           st_log := st_log st1 ++ [Download (url request) outtmpl] |})) ∧
  (∀ fs1 listing video_file text fs2,
     ydl_download E (url request) outtmpl (<[tmp := []]> (st_fs st1))
       = (Done tt, fs1) →
     fs1 !! tmp = Some listing →
     downloaded_file listing = Some video_file →
     ffmpeg_run E (path_join tmp video_file) (output_path E) start_seconds
       (end_seconds - start_seconds) fs1 = (Fails text, fs2) →
     trim_video E request st =
       (Raise (VideoProcessingError text),
        {| st_fs := delete tmp fs2;
           st_log := st_log st1 ++
                     [Download (url request) outtmpl;
                      FfmpegRun (path_join tmp video_file) (output_path E)
                        start_seconds (end_seconds - start_seconds)] |})).
Proof.
  intros Hval st1 tmp outtmpl. split; [done|]. split.
  - intros text fs1 Hdl.
    apply (trim_video_orchestrator_raises E _ st _ _ _ _ Hval).
    by apply orchestrator_download_fails.
  - intros fs1 listing video_file text fs2 Hdl Hls Hfile Hff.
    apply (trim_video_orchestrator_raises E _ st _ _ _ _ Hval).
    destruct Hval as (Hs & He & _).
    exact (orchestrator_trims E _ _ _ _ st1 _ _ _ _ _ _ _ Hdl Hls Hfile Hs He Hff).
Qed.

Lemma C4_tool_failure_surfaced_witness :
  trim_video (sample_env probe_100s download_fails ffmpeg_ok)
    (sample_request "00:00:10" "00:00:20") empty_state
  = (Raise (VideoProcessingError "ERROR: unable to download video data"),
     {| st_fs := {[ "/tmp/video-trimmer" := [] ]};
        st_log := [ExtractInfo sample_url;
                   Download sample_url "/tmp/tmpk3v9x2ab/video.%(ext)s"] |}) ∧
  trim_video (sample_env probe_100s download_ok ffmpeg_fails_partial)
    (sample_request "00:00:10" "00:00:20") empty_state
  = (Raise (VideoProcessingError "ffmpeg error (see stderr output for detail)"),
     {| st_fs := {[ "/tmp/video-trimmer" :=
                      [Dirent sample_out_name 1704110600 true] ]};
        st_log := [ExtractInfo sample_url;
                   Download sample_url "/tmp/tmpk3v9x2ab/video.%(ext)s";
                   FfmpegRun "/tmp/tmpk3v9x2ab/video.mp4"
                     "/tmp/video-trimmer/trimmed_video_20240101_120000.mp4"
                     10 10] |}).
Proof.
  assert (∀ download ffmpeg,
            passes_validation (sample_env probe_100s download ffmpeg)
              (sample_request "00:00:10" "00:00:20") 10 20) as Hval.
  { intros download ffmpeg.
    split; [reflexivity|]. split; [reflexivity|]. split; [|lia].
    exists {[ "title" := PStr "A video"; "duration" := PInt 100 ]}, 100.
    split; [reflexivity|]. split; [reflexivity|lia]. }
  split.
  - destruct (C4_tool_failure_surfaced
                (sample_env probe_100s download_fails ffmpeg_ok)
                (sample_request "00:00:10" "00:00:20") empty_state 10 20
                (Hval _ _))
      as (_ & Hdownload & _).
    rewrite (Hdownload "ERROR: unable to download video data"
               (write_file sample_tmp "video.mp4.part" 1704110500
                  (<[sample_tmp := []]> {[ "/tmp/video-trimmer" := [] ]}))
               eq_refl).
    vm_compute. reflexivity.
  - destruct (C4_tool_failure_surfaced
                (sample_env probe_100s download_ok ffmpeg_fails_partial)
                (sample_request "00:00:10" "00:00:20") empty_state 10 20
                (Hval _ _))
      as (_ & _ & Htrim).
    rewrite (Htrim
               (write_file sample_tmp "video.mp4" 1704110500
                  (<[sample_tmp := []]> {[ "/tmp/video-trimmer" := [] ]}))
               [Dirent "video.mp4" 1704110500 true] "video.mp4"
               "ffmpeg error (see stderr output for detail)"
               (write_file "/tmp/video-trimmer" sample_out_name 1704110600
                  (write_file sample_tmp "video.mp4" 1704110500
                     (<[sample_tmp := []]> {[ "/tmp/video-trimmer" := [] ]})))
               eq_refl).
    + vm_compute. reflexivity.
    + vm_compute. reflexivity.
    + reflexivity.
    + reflexivity.
Defined.

(** C4 as stated fails: here the trim tool fails after it has started
    writing, and the partial file is still at the output path when the
    endpoint answers 500. *)
Lemma C4_partial_output_left_counterexample :
  passes_validation (sample_env probe_100s download_ok ffmpeg_fails_partial)
    (sample_request "00:00:10" "00:00:20") 10 20 ∧
  ¬ file_at (st_fs empty_state) "/tmp/video-trimmer" sample_out_name ∧
  output_path (sample_env probe_100s download_ok ffmpeg_fails_partial)
    = path_join "/tmp/video-trimmer" sample_out_name ∧
  ∃ st',
    trim_video (sample_env probe_100s download_ok ffmpeg_fails_partial)
      (sample_request "00:00:10" "00:00:20") empty_state
    = (Raise (VideoProcessingError "ffmpeg error (see stderr output for detail)"),
       st') ∧
    st_log st' =
      [ExtractInfo sample_url;
       Download sample_url "/tmp/tmpk3v9x2ab/video.%(ext)s";
       FfmpegRun "/tmp/tmpk3v9x2ab/video.mp4"
         "/tmp/video-trimmer/trimmed_video_20240101_120000.mp4" 10 10] ∧
    file_at (st_fs st') "/tmp/video-trimmer" sample_out_name.
Proof.
  split.
  { split; [reflexivity|]. split; [reflexivity|]. split; [|lia].
    exists {[ "title" := PStr "A video"; "duration" := PInt 100 ]}, 100.
    split; [reflexivity|]. split; [reflexivity|lia]. }
  split.
  { intros (listing & Hls & _). discriminate Hls. }
  split; [reflexivity|].
  eexists. split; [vm_compute; reflexivity|]. split; [reflexivity|].
  exists [Dirent sample_out_name 1704110600 true]. split; [reflexivity|].
  apply list_elem_of_here.
Qed.

(** C6: whether the orchestration returns or raises
    [VideoProcessingError] (it does one of the two), the temporary
    directory it created is absent from the file system when the call
    ends. *)
Theorem C6_temporary_directory_removed (E : environment)
  (u start_time end_time out : string) (st : state) :
  ((download_and_trim_video E u start_time end_time out st).1 = Return tt ∨
   ∃ msg, (download_and_trim_video E u start_time end_time out st).1
          = Raise (VideoProcessingError msg)) ∧
  st_fs (download_and_trim_video E u start_time end_time out st).2
    !! mkdtemp E (st_fs st) = None.
Proof. apply orchestrator_outcomes. Qed.

(** C8: when the download returns normally and no name in the temporary
    directory starts with ["video."], the orchestrator raises the 500
    error "Video file not found after download"; the log shows the
    download as the only tool call, so the trim step is not reached. *)
Theorem C8_downloaded_file_missing (E : environment)
  (u start_time end_time out : string) (st : state)
  (fs1 : gmap string (list dirent)) (listing : list dirent) :
  let tmp := mkdtemp E (st_fs st) in
  let outtmpl := path_join tmp "video.%(ext)s" in
  ydl_download E u outtmpl (<[tmp := []]> (st_fs st)) = (Done tt, fs1) →
  fs1 !! tmp = Some listing →
  (∀ f, f ∈ d_name <$> listing → startswith f "video." = false) →
  download_and_trim_video E u start_time end_time out st =
    (Raise (HTTPException 500
              "Error processing video: Video file not found after download"),
     {| st_fs := delete tmp fs1; st_log := st_log st ++ [Download u outtmpl] |}).
Proof.
  intros tmp outtmpl Hdl Hls Hno.
  apply (orchestrator_file_missing E u start_time end_time out st fs1 listing);
    [done|done|]. by apply downloaded_file_None.
Qed.

Lemma C8_downloaded_file_missing_witness :
  download_and_trim_video (sample_env probe_100s download_nothing ffmpeg_ok)
    sample_url "00:00:10" "00:00:20"
    "/tmp/video-trimmer/trimmed_video_20240101_120000.mp4" empty_state
  = (Raise (HTTPException 500
              "Error processing video: Video file not found after download"),
     {| st_fs := ∅;
        st_log := [Download sample_url "/tmp/tmpk3v9x2ab/video.%(ext)s"] |}).
Proof.
  rewrite (C8_downloaded_file_missing
             (sample_env probe_100s download_nothing ffmpeg_ok)
             sample_url "00:00:10" "00:00:20"
             "/tmp/video-trimmer/trimmed_video_20240101_120000.mp4" empty_state
             (<[sample_tmp := []]> ∅) [] eq_refl eq_refl).
  - vm_compute. reflexivity.
  - simpl. intros f Hf. by apply elem_of_nil in Hf.
Defined.

(** ** The retention pass *)

Section Sorting.

Lemma insert_by_ctime_perm x l : insert_by_ctime x l ≡ₚ x :: l.
Proof.
  induction l as [|y l IH]; simpl; [done|].
  destruct (d_ctime x <=? d_ctime y); [done|].
  rewrite IH. apply Permutation_swap.
Qed.

Lemma sorted_by_ctime_perm l : sorted_by_ctime l ≡ₚ l.
Proof.
  induction l as [|x l IH]; simpl; [done|].
  rewrite insert_by_ctime_perm. by f_equiv.
Qed.

Lemma insert_by_ctime_sorted x l :
  StronglySorted ctime_le l → StronglySorted ctime_le (insert_by_ctime x l).
Proof.
  induction 1 as [|y l Hsorted IH Hall]; simpl.
  - repeat constructor.
  - destruct (d_ctime x <=? d_ctime y) eqn:Hle.
    + apply Z.leb_le in Hle. constructor; [by constructor|].
      constructor; [done|]. eapply Forall_impl; [exact Hall|].
      intros z Hz. unfold ctime_le in *. lia.
    + apply Z.leb_gt in Hle. constructor; [done|].
      rewrite insert_by_ctime_perm. constructor; [|done].
      unfold ctime_le. lia.
Qed.

Lemma sorted_by_ctime_sorted l : StronglySorted ctime_le (sorted_by_ctime l).
Proof.
  induction l as [|x l IH]; simpl; [constructor|].
  by apply insert_by_ctime_sorted.
Qed.

(** The sort is stable: entries with the same time keep their listing
    order. *)
Lemma insert_by_ctime_stable t x l :
  filter (λ e, d_ctime e = t) (insert_by_ctime x l)
  = filter (λ e, d_ctime e = t) (x :: l).
Proof.
  induction l as [|y l IH]; simpl; [done|].
  destruct (d_ctime x <=? d_ctime y) eqn:Hle; [done|].
  apply Z.leb_gt in Hle.
  rewrite (filter_cons _ y), IH, !filter_cons.
  repeat case_decide; try done; lia.
Qed.

Lemma sorted_by_ctime_stable t l :
  filter (λ e, d_ctime e = t) (sorted_by_ctime l) = filter (λ e, d_ctime e = t) l.
Proof.
  induction l as [|x l IH]; simpl; [done|].
  by rewrite insert_by_ctime_stable, !filter_cons, IH.
Qed.

Lemma sorted_by_ctime_length l : length (sorted_by_ctime l) = length l.
Proof. by rewrite sorted_by_ctime_perm. Qed.

End Sorting.

Section Names.

Lemma NoDup_names_eq (listing : list dirent) e1 e2 :
  NoDup (d_name <$> listing) → e1 ∈ listing → e2 ∈ listing →
  d_name e1 = d_name e2 → e1 = e2.
Proof.
  induction listing as [|x l IH]; [by intros _ ?%elem_of_nil|].
  rewrite fmap_cons, NoDup_cons. intros [Hx Hl].
  rewrite !elem_of_cons. intros [->|H1] [->|H2] Hname; [done| | |by apply IH].
  - destruct Hx. rewrite Hname. by apply list_elem_of_fmap_2.
  - destruct Hx. rewrite <- Hname. by apply list_elem_of_fmap_2.
Qed.

Lemma NoDup_names_filter (P : dirent → Prop) `{!∀ e, Decision (P e)}
  (listing : list dirent) :
  NoDup (d_name <$> listing) → NoDup (d_name <$> filter P listing).
Proof.
  intros Hl. eapply sublist_NoDup; [exact Hl|].
  apply fmap_sublist, sublist_filter.
Qed.

Lemma filter_ext_elem {A} (P Q : A → Prop)
  `{!∀ x, Decision (P x), !∀ x, Decision (Q x)} (l : list A) :
  (∀ x, x ∈ l → P x ↔ Q x) → filter P l = filter Q l.
Proof.
  induction l as [|a l IH]; [done|]. intros Hext.
  rewrite !filter_cons, IH by (intros x Hx; apply Hext; by right).
  apply decide_ext, Hext. by left.
Qed.

Lemma filter_all {A} (P : A → Prop) `{!∀ x, Decision (P x)} (l : list A) :
  (∀ x, x ∈ l → P x) → filter P l = l.
Proof.
  induction l as [|a l IH]; [done|]. intros Hall.
  rewrite filter_cons_True by (apply Hall; by left).
  rewrite IH; [done|]. intros x Hx. apply Hall. by right.
Qed.

End Names.

Section Retention.

Context (E : environment).

Lemma survives_nil e : survives [] e.
Proof. right. apply not_elem_of_nil. Qed.

Lemma survives_cons n rest e :
  survives (n :: rest) e ↔ survives [n] e ∧ survives rest e.
Proof.
  unfold survives. rewrite not_elem_of_cons, list_elem_of_singleton. tauto.
Qed.

(** One turn of the loop: the named entry goes when it exists and can be
    removed, and nothing else changes; the failure is swallowed. *)
Lemma remove_step dir n st listing :
  st_fs st !! dir = Some listing →
  NoDup (d_name <$> listing) →
  try_except (os_remove dir n) except_Exception (fun _ => ret tt) st
  = (Return tt, set_fs (<[dir := filter (survives [n]) listing]> (st_fs st)) st).
Proof.
  intros Hls Hnd. unfold try_except, os_remove. rewrite Hls.
  assert (set_fs (<[dir := listing]> (st_fs st)) st = st) as Hid.
  { destruct st as [fs lg]. unfold set_fs. simpl in *. by rewrite insert_id. }
  destruct (List.find _ listing) as [e0|] eqn:Hfind.
  - apply find_some in Hfind as [Hin Hname].
    apply list_elem_of_In in Hin. apply String.eqb_eq in Hname.
    destruct (d_removable e0) eqn:Hrem.
    + do 3 f_equal. apply filter_ext_elem. intros e He. unfold survives.
      rewrite list_elem_of_singleton. split; [by right|].
      intros [Hfalse|Hne]; [|done]. intros Heq.
      assert (e = e0) as -> by (apply (NoDup_names_eq listing); congruence).
      congruence.
    + simpl. rewrite filter_all; [by rewrite Hid|].
      intros e He. unfold survives. rewrite list_elem_of_singleton.
      destruct (decide (d_name e = n)) as [Heq|Hne]; [|by right].
      left. assert (e = e0) as -> by (apply (NoDup_names_eq listing); congruence).
      done.
  - simpl. rewrite filter_all; [by rewrite Hid|].
    intros e He. right. rewrite list_elem_of_singleton. intros Heq.
    apply list_elem_of_In in He.
    pose proof (find_none _ _ Hfind e He) as Hno. simpl in Hno.
    apply String.eqb_neq in Hno. done.
Qed.

Lemma remove_old_files_spec dir names : ∀ st listing,
  st_fs st !! dir = Some listing →
  NoDup (d_name <$> listing) →
  remove_old_files dir names st
  = (Return tt, set_fs (<[dir := filter (survives names) listing]> (st_fs st)) st).
Proof.
  induction names as [|n rest IH]; intros st listing Hls Hnd; simpl.
  - unfold ret. rewrite filter_all by (intros; apply survives_nil).
    destruct st as [fs lg]. unfold set_fs. simpl in *. by rewrite insert_id.
  - unfold bind. rewrite (remove_step dir n st listing Hls Hnd).
    rewrite (IH _ (filter (survives [n]) listing)); simpl.
    + rewrite list_filter_filter. unfold set_fs. simpl.
      rewrite insert_insert_eq. do 3 f_equal.
      apply list_filter_iff. intros e. rewrite (survives_cons n rest e). tauto.
    + apply lookup_insert_eq.
    + by apply NoDup_names_filter.
Qed.

(** What the retention pass leaves in the directory. *)
Lemma clean_up_old_files_spec dir st listing :
  st_fs st !! dir = Some listing →
  NoDup (d_name <$> listing) →
  (10 < length listing)%nat →
  clean_up_old_files E dir st
  = (Return tt,
     set_fs (<[dir := filter (survives (stale_names listing)) listing]> (st_fs st)) st).
Proof.
  intros Hls Hnd Hlen. unfold clean_up_old_files, bind, scandir. rewrite Hls.
  rewrite length_fmap, sorted_by_ctime_length.
  rewrite (proj2 (Nat.ltb_lt _ _) Hlen).
  by apply remove_old_files_spec.
Qed.

Lemma clean_up_old_files_small dir st listing :
  st_fs st !! dir = Some listing →
  (length listing ≤ 10)%nat →
  clean_up_old_files E dir st = (Return tt, st).
Proof.
  intros Hls Hlen. unfold clean_up_old_files, bind, scandir. rewrite Hls.
  rewrite length_fmap, sorted_by_ctime_length.
  by rewrite (proj2 (Nat.ltb_ge _ _) Hlen).
Qed.

(** An entry is outside the stale names exactly when it is among the
    last 10 of the sorted listing. *)
Lemma not_stale_last10 listing e :
  NoDup (d_name <$> listing) → e ∈ listing →
  d_name e ∉ stale_names listing ↔ e ∈ last10 (sorted_by_ctime listing).
Proof.
  intros Hnd He. unfold stale_names, drop_last, last10.
  rewrite length_fmap, <- fmap_take.
  set (k := (length (sorted_by_ctime listing) - 10)%nat).
  assert (NoDup (d_name <$> sorted_by_ctime listing)) as Hnds
    by by rewrite sorted_by_ctime_perm.
  rewrite <- (take_drop k (sorted_by_ctime listing)) in Hnds.
  rewrite fmap_app in Hnds. apply NoDup_app in Hnds as (_ & Hdisj & _).
  assert (e ∈ take k (sorted_by_ctime listing) ++ drop k (sorted_by_ctime listing))
    as Hsplit by by rewrite take_drop, sorted_by_ctime_perm.
  apply elem_of_app in Hsplit. split.
  - intros Hnot. destruct Hsplit as [Htake|Hdrop]; [|done].
    destruct Hnot. by apply list_elem_of_fmap_2.
  - intros Hdrop Hstale. apply (Hdisj _ Hstale). by apply list_elem_of_fmap_2.
Qed.

End Retention.

(** C3, as the code has it: on a directory of more than 10 entries the
    retention pass tries to remove every entry except the last 10 of the
    listing sorted by creation time (the time [os.path.getctime]
    reports), ascending and stable; an entry whose
    removal fails stays, the failure being swallowed.  When every such
    removal succeeds, exactly 10 entries remain, they are the 10 most
    recently created, and each removed entry is at most as recent as each
    kept one.  A successful trim ends with this pass and returns the file
    response: with 15 earlier files and the new one in the directory, the
    10 most recently created of the 16 remain. *)
Theorem C3_retention_keeps_last_ten (E : environment) :
  (∀ listing,
     sorted_by_ctime listing ≡ₚ listing ∧
     StronglySorted ctime_le (sorted_by_ctime listing) ∧
     ∀ t, filter (λ e, d_ctime e = t) (sorted_by_ctime listing)
          = filter (λ e, d_ctime e = t) listing) ∧
  (∀ dir st listing,
     st_fs st !! dir = Some listing →
     NoDup (d_name <$> listing) →
     (10 < length listing)%nat →
     clean_up_old_files E dir st
       = (Return tt, set_fs (<[dir := retained listing]> (st_fs st)) st) ∧
     (∀ e, e ∈ retained listing ↔
           e ∈ last10 (sorted_by_ctime listing) ∨
           (e ∈ listing ∧ d_removable e = false)) ∧
     ((∀ e, e ∈ listing → e ∉ last10 (sorted_by_ctime listing) →
            d_removable e = true) →
      length (retained listing) = 10%nat ∧
      retained listing ≡ₚ last10 (sorted_by_ctime listing) ∧
      ∀ k x, k ∈ retained listing → x ∈ listing → x ∉ retained listing →
             d_ctime x ≤ d_ctime k)) ∧
  (∀ request st start_seconds end_seconds st2 listing,
     passes_validation E request start_seconds end_seconds →
     download_and_trim_video E (url request) (start_time request)
       (end_time request) (output_path E) (state_before_orchestration E request st)
     = (Return tt, st2) →
     st_fs st2 !! output_dir E = Some listing →
     NoDup (d_name <$> listing) →
     (10 < length listing)%nat →
     trim_video E request st
     = (Return {| path := output_path E; media_type := "video/mp4";
                  filename := output_filename E |},
        set_fs (<[output_dir E := retained listing]> (st_fs st2)) st2)).
Proof.
  split.
  { intros listing. split; [apply sorted_by_ctime_perm|].
    split; [apply sorted_by_ctime_sorted|].
    intros t. apply sorted_by_ctime_stable. }
  split.
  - intros dir st listing Hls Hnd Hlen.
    split; [by apply clean_up_old_files_spec|].
    assert (∀ e, e ∈ last10 (sorted_by_ctime listing) → e ∈ listing) as Hsub.
    { intros e He. rewrite <- (sorted_by_ctime_perm listing).
      eapply elem_of_sublist; [exact He|apply sublist_drop]. }
    assert (∀ e, e ∈ retained listing ↔
                 e ∈ last10 (sorted_by_ctime listing) ∨
                 (e ∈ listing ∧ d_removable e = false)) as Hchar.
    { intros e. unfold retained. rewrite list_elem_of_filter. unfold survives.
      split.
      - intros [[Hrem|Hnot] He]; [by right|].
        left. by apply not_stale_last10.
      - intros [Hlast|[He Hrem]]; [|by split; [left|]].
        split; [|by apply Hsub]. right. apply not_stale_last10; auto. }
    split; [exact Hchar|]. intros Hrem.
    assert (∀ e, e ∈ retained listing ↔ e ∈ last10 (sorted_by_ctime listing))
      as Hsame.
    { intros e. rewrite Hchar. split; [|by left].
      intros [Hlast|[He Hfalse]]; [done|].
      destruct (decide (e ∈ last10 (sorted_by_ctime listing))) as [|Hnot]; [done|].
      rewrite (Hrem e He Hnot) in Hfalse. discriminate. }
    assert (retained listing ≡ₚ last10 (sorted_by_ctime listing)) as Hperm.
    { apply NoDup_Permutation; [| |exact Hsame].
      - apply NoDup_filter. by apply (NoDup_fmap_1 d_name).
      - eapply sublist_NoDup; [|apply sublist_drop].
        rewrite sorted_by_ctime_perm. by apply (NoDup_fmap_1 d_name). }
    split; [|split; [exact Hperm|]].
    + rewrite Hperm. unfold last10.
      rewrite length_drop, sorted_by_ctime_length. lia.
    + intros k x Hk Hx Hnot. rewrite Hsame in Hk, Hnot.
      unfold last10 in *.
      set (n := (length (sorted_by_ctime listing) - 10)%nat) in *.
      assert (x ∈ take n (sorted_by_ctime listing)) as Htake.
      { rewrite <- (sorted_by_ctime_perm listing) in Hx.
        rewrite <- (take_drop n (sorted_by_ctime listing)) in Hx.
        apply elem_of_app in Hx as [|]; done. }
      pose proof (sorted_by_ctime_sorted listing) as Hsorted.
      rewrite <- (take_drop n (sorted_by_ctime listing)) in Hsorted.
      exact (StronglySorted_app_1_elem_of _ _ _ _ _ Hsorted Htake Hk).
  - intros request st start_seconds end_seconds st2 listing Hval Hrun Hls Hnd Hlen.
    rewrite (trim_video_orchestrator_returns E _ st _ _ _ Hval Hrun).
    unfold bind. by rewrite (clean_up_old_files_spec E _ _ _ Hls Hnd Hlen).
Qed.

Lemma C3_retention_keeps_last_ten_witness :
  trim_video (sample_env probe_100s download_ok ffmpeg_ok)
    (sample_request "00:00:10" "00:00:20") (state_with_output (old_files 15))
  = (Return {| path := "/tmp/video-trimmer/trimmed_video_20240101_120000.mp4";
               media_type := "video/mp4";
               filename := "trimmed_video_20240101_120000.mp4" |},
     {| st_fs := {[ "/tmp/video-trimmer" :=
                      drop 6 (old_files 15)
                      ++ [Dirent sample_out_name 1704110600 true] ]};
        st_log := [ExtractInfo sample_url;
                   Download sample_url "/tmp/tmpk3v9x2ab/video.%(ext)s";
                   FfmpegRun "/tmp/tmpk3v9x2ab/video.mp4"
                     "/tmp/video-trimmer/trimmed_video_20240101_120000.mp4"
                     10 10] |}).
Proof.
  destruct (C3_retention_keeps_last_ten
              (sample_env probe_100s download_ok ffmpeg_ok)) as (_ & _ & Htrim).
  rewrite (Htrim (sample_request "00:00:10" "00:00:20")
             (state_with_output (old_files 15)) 10 20
             {| st_fs := {[ "/tmp/video-trimmer" :=
                              old_files 15
                              ++ [Dirent sample_out_name 1704110600 true] ]};
                st_log := [ExtractInfo sample_url;
                           Download sample_url "/tmp/tmpk3v9x2ab/video.%(ext)s";
                           FfmpegRun "/tmp/tmpk3v9x2ab/video.mp4"
                             "/tmp/video-trimmer/trimmed_video_20240101_120000.mp4"
                             10 10] |}
             (old_files 15 ++ [Dirent sample_out_name 1704110600 true])).
  - vm_compute. reflexivity.
  - split; [reflexivity|]. split; [reflexivity|]. split; [|lia].
    exists {[ "title" := PStr "A video"; "duration" := PInt 100 ]}, 100.
    split; [reflexivity|]. split; [reflexivity|lia].
  - vm_compute. reflexivity.
  - reflexivity.
  - apply (bool_decide_unpack _). vm_compute. exact I.
  - vm_compute. lia.
Defined.

(** C3 as stated fails: the oldest of these eleven entries is a
    sub-directory, [os.remove] fails on it, and eleven entries remain. *)
Lemma C3_unremovable_entry_counterexample :
  ¬ (∀ (E : environment) (dir : string) (st : state) (listing : list dirent),
       st_fs st !! dir = Some listing →
       NoDup (d_name <$> listing) →
       (10 < length listing)%nat →
       ∃ st' kept,
         clean_up_old_files E dir st = (Return tt, st') ∧
         st_fs st' !! dir = Some kept ∧
         kept ≡ₚ last10 (sorted_by_ctime listing)).
Proof.
  intros Hclaim.
  destruct (Hclaim (sample_env probe_100s download_ok ffmpeg_ok)
              "/tmp/video-trimmer" (state_with_output listing_with_subdir)
              listing_with_subdir)
    as (st' & kept & Hrun & Hls & Hperm).
  - reflexivity.
  - apply (bool_decide_unpack _). vm_compute. exact I.
  - vm_compute. lia.
  - vm_compute in Hrun. injection Hrun as <-.
    vm_compute in Hls. injection Hls as <-.
    apply Permutation_length in Hperm. vm_compute in Hperm. discriminate Hperm.
Qed.

(** ** Every run of [trim_video] *)

Section Runs.

Context (E : environment).

Lemma time_to_seconds_Raise t e :
  time_to_seconds E t = Raise e → malformed_time E t.
Proof.
  intros Hr H M S Hwf.
  rewrite (time_to_seconds_well_formed E _ _ _ _ Hwf) in Hr. discriminate.
Qed.

(** One attempt at a removal returns normally and can only shorten the
    listing of its directory. *)
Lemma remove_attempt_frame dir name st :
  ∃ st', try_except (os_remove dir name) except_Exception (fun _ => ret tt) st
         = (Return tt, st') ∧
         st_log st' = st_log st ∧
         (∀ d, d ≠ dir → st_fs st' !! d = st_fs st !! d) ∧
         (∀ listing, st_fs st !! dir = Some listing →
            ∃ listing', st_fs st' !! dir = Some listing' ∧
                        listing' `sublist_of` listing).
Proof.
  unfold try_except, os_remove.
  destruct (st_fs st !! dir) as [entries|] eqn:Hls; simpl.
  - destruct (List.find _ entries) as [e|]; simpl.
    + destruct (d_removable e); simpl.
      * eexists. split; [reflexivity|]. simpl. split; [done|]. split.
        -- intros d Hd. by rewrite lookup_insert_ne.
        -- intros listing [= <-]. eexists. split; [apply lookup_insert_eq|].
           apply sublist_filter.
      * exists st. split; [done|]. split; [done|]. split; [done|].
        intros listing Hl. exists listing. split; [congruence|done].
    + exists st. split; [done|]. split; [done|]. split; [done|].
      intros listing Hl. exists listing. split; [congruence|done].
  - exists st. split; [done|]. split; [done|]. split; [done|].
    intros listing Hl. congruence.
Qed.

Lemma remove_old_files_frame dir names : ∀ st,
  ∃ st', remove_old_files dir names st = (Return tt, st') ∧
         st_log st' = st_log st ∧
         (∀ d, d ≠ dir → st_fs st' !! d = st_fs st !! d) ∧
         (∀ listing, st_fs st !! dir = Some listing →
            ∃ listing', st_fs st' !! dir = Some listing' ∧
                        listing' `sublist_of` listing).
Proof.
  induction names as [|n rest IH]; intros st; simpl.
  - exists st. split; [done|]. split; [done|]. split; [done|].
    intros listing Hl. by exists listing.
  - unfold bind.
    destruct (remove_attempt_frame dir n st) as (st1 & -> & Hlog1 & Hfr1 & Hsub1).
    destruct (IH st1) as (st2 & -> & Hlog2 & Hfr2 & Hsub2).
    exists st2. split; [done|]. split; [congruence|]. split.
    + intros d Hd. rewrite Hfr2, Hfr1; done.
    + intros listing Hl. destruct (Hsub1 _ Hl) as (l1 & Hl1 & Hs1).
      destruct (Hsub2 _ Hl1) as (l2 & Hl2 & Hs2).
      exists l2. split; [done|]. by etrans.
Qed.

Lemma clean_up_old_files_frame dir st listing :
  st_fs st !! dir = Some listing →
  ∃ st', clean_up_old_files E dir st = (Return tt, st') ∧
         st_log st' = st_log st ∧
         (∀ d, d ≠ dir → st_fs st' !! d = st_fs st !! d) ∧
         ∃ listing', st_fs st' !! dir = Some listing' ∧
                     listing' `sublist_of` listing.
Proof.
  intros Hls. unfold clean_up_old_files, bind, scandir. rewrite Hls.
  cbv zeta. destruct (_ <? _)%nat.
  - destruct (remove_old_files_frame dir
                (drop_last 10 (d_name <$> sorted_by_ctime listing)) st)
      as (st' & -> & Hlog & Hfr & Hsub).
    exists st'. split; [done|]. split; [done|]. split; [done|]. by apply Hsub.
  - exists st. split; [done|]. split; [done|]. split; [done|]. by exists listing.
Qed.

Lemma clean_up_old_files_missing dir st :
  st_fs st !! dir = None →
  clean_up_old_files E dir st
  = (Raise (PyErr FileNotFoundError (error_text E (NoSuchDirectory dir))), st).
Proof.
  intros Hls. unfold clean_up_old_files, bind, scandir. by rewrite Hls.
Qed.

Lemma trim_video_cases request st :
  trim_video_case E request st
    (trim_video E request st).1 (trim_video E request st).2.
Proof.
  destruct (time_to_seconds E (start_time request)) as [s|e1] eqn:Hs.
  2:{ rewrite trim_video_malformed
        by (left; by eapply time_to_seconds_Raise).
      constructor. left. by eapply time_to_seconds_Raise. }
  destruct (time_to_seconds E (end_time request)) as [e|e2] eqn:He.
  2:{ rewrite trim_video_malformed
        by (right; by eapply time_to_seconds_Raise).
      constructor. right. by eapply time_to_seconds_Raise. }
  destruct (extract_info E (url request)) as [[d|]|msg] eqn:Hx.
  - destruct (default (PInt 0) (d !! "duration")) as [|n|v] eqn:Hdur.
    + rewrite (trim_video_duration_not_int E _ st _ _ _ Hs He Hx)
        by (rewrite Hdur; done).
      rewrite Hdur. simpl.
      destruct (d !! "duration") as [v|] eqn:Hv; [|done]. simpl in Hdur. subst v.
      by eapply case_duration_type.
    + destruct (decide (n < e)) as [Hlt|Hge].
      { rewrite (trim_video_checks E _ st _ _ _ _ Hs He Hx Hdur (or_introl Hlt)).
        rewrite (proj2 (Z.ltb_lt _ _) Hlt). simpl.
        by eapply case_duration_exceeded. }
      destruct (decide (e ≤ s)) as [Hle|Hgt].
      { rewrite (trim_video_checks E _ st _ _ _ _ Hs He Hx Hdur (or_intror Hle)).
        rewrite (proj2 (Z.ltb_ge _ _) (proj1 (Z.nlt_ge _ _) Hge)). simpl.
        eapply case_invalid_range; eauto. lia. }
      assert (passes_validation E request s e) as Hval.
      { split; [done|]. split; [done|]. split; [|lia]. exists d, n.
        split; [done|]. split; [done|lia]. }
      destruct (download_and_trim_video E (url request) (start_time request)
                  (end_time request) (output_path E)
                  (state_before_orchestration E request st))
        as [[[]|ex] st2] eqn:Hrun.
      * rewrite (trim_video_orchestrator_returns E _ st _ _ _ Hval Hrun).
        unfold bind.
        destruct (st_fs st2 !! output_dir E) as [listing|] eqn:Hls.
        -- destruct (clean_up_old_files_frame _ _ _ Hls) as (st3 & Hclean & _).
           pose proof (case_file_response E request st s e st2 listing Hval Hrun Hls)
             as Hcase.
           rewrite Hclean in Hcase |- *. exact Hcase.
        -- rewrite (clean_up_old_files_missing _ _ Hls). simpl.
           by eapply case_output_dir_missing.
      * rewrite (trim_video_orchestrator_raises E _ st _ _ _ _ Hval Hrun). simpl.
        destruct (orchestrator_outcomes E (url request) (start_time request)
                    (end_time request) (output_path E)
                    (state_before_orchestration E request st)) as [Hout _].
        rewrite Hrun in Hout. simpl in Hout.
        destruct Hout as [Hout|[msg Hout]]; [discriminate|].
        injection Hout as ->. by eapply case_processing_error.
    + rewrite (trim_video_duration_not_int E _ st _ _ _ Hs He Hx)
        by (rewrite Hdur; done).
      rewrite Hdur. simpl.
      destruct (d !! "duration") as [v'|] eqn:Hv; [|done]. simpl in Hdur. subst v'.
      by eapply case_duration_type.
  - rewrite (trim_video_parsed E _ st _ _ Hs He). unfold bind.
    rewrite (get_video_info_None E _ _ Hx). simpl.
    eapply case_info_error; eauto.
  - rewrite (trim_video_parsed E _ st _ _ Hs He). unfold bind.
    rewrite (get_video_info_Fails E _ _ _ Hx). simpl.
    eapply case_info_error; eauto.
Qed.

End Runs.

(** ** The tool calls of a run *)

Section ToolCalls.

Context (E : environment).

Lemma state_before_orchestration_log request st :
  st_log (state_before_orchestration E request st)
  = st_log st ++ [ExtractInfo (url request)].
Proof.
  unfold state_before_orchestration, makedirs_exist_ok. simpl.
  by destruct (st_fs st !! output_dir E).
Qed.

(** The orchestrator always calls the download, and calls the trim tool
    at most once, after it, on a file with the expected prefix and with
    the parsed times. *)
Lemma orchestrator_log u start_time end_time out st :
  let tmp := mkdtemp E (st_fs st) in
  let outtmpl := path_join tmp "video.%(ext)s" in
  let run := download_and_trim_video E u start_time end_time out st in
  (st_log run.2 = st_log st ++ [Download u outtmpl] ∧
   ∃ msg, run.1 = Raise (VideoProcessingError msg)) ∨
  (∃ video_file start_seconds end_seconds,
     startswith video_file "video." = true ∧
     time_to_seconds E start_time = Return start_seconds ∧
     time_to_seconds E end_time = Return end_seconds ∧
     st_log run.2 = st_log st ++
       [Download u outtmpl;
        FfmpegRun (path_join tmp video_file) out start_seconds
          (end_seconds - start_seconds)]).
Proof.
  intros tmp outtmpl run. subst run.
  destruct (ydl_download E u outtmpl (<[tmp := []]> (st_fs st)))
    as [[[]|text] fs1] eqn:Hdl.
  2:{ left. rewrite (orchestrator_download_fails E _ _ _ _ _ _ _ Hdl). eauto. }
  destruct (fs1 !! tmp) as [listing|] eqn:Hls.
  2:{ left.
      unfold download_and_trim_video, with_TemporaryDirectory, try_except, bind,
        call_download, scandir.
      simpl. fold tmp. fold outtmpl. rewrite Hdl. simpl. rewrite Hls. simpl.
      eauto. }
  destruct (downloaded_file listing) as [video_file|] eqn:Hfile.
  2:{ left. rewrite (orchestrator_file_missing E _ _ _ _ _ _ _ Hdl Hls Hfile).
      eauto. }
  assert (startswith video_file "video." = true) as Hpre
    by (by apply find_some in Hfile as [_ ?]).
  destruct (time_to_seconds E start_time) as [ss|e1] eqn:Hs.
  2:{ left. pose proof (py_not_downloaded_file _ _ Hfile) as Hnot.
      unfold download_and_trim_video, with_TemporaryDirectory, try_except, bind,
        call_download, scandir, lift.
      simpl. fold tmp. fold outtmpl. rewrite Hdl. simpl. rewrite Hls.
      unfold downloaded_file in Hfile. rewrite Hfile, Hnot. simpl.
      rewrite Hs. simpl. eauto. }
  destruct (time_to_seconds E end_time) as [es|e2] eqn:He.
  2:{ left. pose proof (py_not_downloaded_file _ _ Hfile) as Hnot.
      unfold download_and_trim_video, with_TemporaryDirectory, try_except, bind,
        call_download, scandir, lift.
      simpl. fold tmp. fold outtmpl. rewrite Hdl. simpl. rewrite Hls.
      unfold downloaded_file in Hfile. rewrite Hfile, Hnot. simpl.
      rewrite Hs, He. simpl. eauto. }
  destruct (ffmpeg_run E (path_join tmp video_file) out ss (es - ss) fs1)
    as [r fs2] eqn:Hff.
  right. exists video_file, ss, es.
  rewrite (orchestrator_trims E _ _ _ _ _ _ _ _ _ _ _ _ Hdl Hls Hfile Hs He Hff).
  done.
Qed.

End ToolCalls.

(** ** Further properties of the endpoints *)


(** X2: the tool calls of one request are, in this order, at most one
    metadata probe, one download and one trim: the download is never made
    without the probe before it, the trim never without the download, and
    the trim always writes to the output path. *)
Theorem X2_tool_call_order (E : environment) (request : VideoRequest)
  (st : state) :
  ∃ calls,
    st_log (trim_video E request st).2 = st_log st ++ calls ∧
    (calls = [] ∨
     calls = [ExtractInfo (url request)] ∨
     (∃ outtmpl, calls = [ExtractInfo (url request);
                          Download (url request) outtmpl]) ∨
     (∃ outtmpl input ss t,
        calls = [ExtractInfo (url request); Download (url request) outtmpl;
                 FfmpegRun input (output_path E) ss t])).
Proof.
  pose proof (orchestrator_log E (url request) (start_time request)
                (end_time request) (output_path E)
                (state_before_orchestration E request st)) as Horch.
  cbv zeta in Horch. rewrite state_before_orchestration_log in Horch.
  destruct (trim_video_cases E request st) as
    [ | | | | | s e msg st2 Hval Hrun | s e st2 Hval Hrun Hls
      | s e st2 listing Hval Hrun Hls ].
  - exists []. by rewrite app_nil_r; eauto.
  - exists [ExtractInfo (url request)]. eauto.
  - exists [ExtractInfo (url request)]. eauto.
  - exists [ExtractInfo (url request)]. eauto.
  - exists [ExtractInfo (url request)]. eauto.
  - rewrite Hrun in Horch. simpl in Horch.
    destruct Horch as [[-> _]|(vf & ss & es & _ & _ & _ & ->)];
      rewrite <- app_assoc; eexists; split; [reflexivity| |reflexivity|]; eauto 10.
  - rewrite Hrun in Horch. simpl in Horch.
    destruct Horch as [[-> _]|(vf & ss & es & _ & _ & _ & ->)];
      rewrite <- app_assoc; eexists; split; [reflexivity| |reflexivity|]; eauto 10.
  - destruct (clean_up_old_files_frame E _ _ _ Hls) as (st3 & Hclean & Hlog & _).
    rewrite Hclean. simpl. rewrite Hlog.
    rewrite Hrun in Horch. simpl in Horch.
    destruct Horch as [[-> _]|(vf & ss & es & _ & _ & _ & ->)];
      rewrite <- app_assoc; eexists; split; [reflexivity| |reflexivity|]; eauto 10.
Qed.

(** X3: a file response is returned only for a request that passed the
    three checks (both times parse, [start < end <= duration], the
    duration an integer), and only after the probe, the download and the
    trim were each called once, the trim with offset [start_seconds] and
    duration [end_seconds - start_seconds] on a file of the temporary
    directory. *)
Theorem X3_file_response_sound (E : environment) (request : VideoRequest)
  (st st' : state) (resp : FileResponse) :
  trim_video E request st = (Return resp, st') →
  resp = file_response E ∧
  ∃ start_seconds end_seconds video_file,
    passes_validation E request start_seconds end_seconds ∧
    start_seconds < end_seconds ∧
    startswith video_file "video." = true ∧
    let tmp := mkdtemp E (st_fs (state_before_orchestration E request st)) in
    st_log st' = st_log st ++
      [ExtractInfo (url request);
       Download (url request) (path_join tmp "video.%(ext)s");
       FfmpegRun (path_join tmp video_file) (output_path E) start_seconds
         (end_seconds - start_seconds)].
Proof.
  intros Hrun. pose proof (trim_video_cases E request st) as Hcase.
  rewrite Hrun in Hcase. simpl in Hcase.
  inversion Hcase as [ | | | | | | | s e st2 listing Hval Horun Hls Hresp Hst ].
  split; [done|].
  pose proof (orchestrator_log E (url request) (start_time request)
                (end_time request) (output_path E)
                (state_before_orchestration E request st)) as Horch.
  cbv zeta in Horch. rewrite Horun, state_before_orchestration_log in Horch.
  simpl in Horch.
  destruct Horch as [[_ [msg Hbad]]|(vf & ss & es & Hpre & Hss & Hes & Hlog)];
    [discriminate|].
  destruct (clean_up_old_files_frame E _ _ _ Hls) as (st3 & Hclean & Hlog3 & _).
  rewrite Hclean. simpl. rewrite Hlog3, Hlog, <- app_assoc.
  destruct Hval as (Hs & He & Hdur & Hlt) eqn:Hv.
  assert (ss = s) as -> by congruence. assert (es = e) as -> by congruence.
  exists s, e, vf. split; [by repeat split|]. done.
Qed.

Lemma X3_file_response_sound_witness :
  file_response (sample_env probe_100s download_ok ffmpeg_ok)
  = {| path := "/tmp/video-trimmer/trimmed_video_20240101_120000.mp4";
       media_type := "video/mp4";
       filename := "trimmed_video_20240101_120000.mp4" |} ∧
  ∃ start_seconds end_seconds video_file,
    passes_validation (sample_env probe_100s download_ok ffmpeg_ok)
      (sample_request "00:00:10" "00:00:20") start_seconds end_seconds ∧
    start_seconds < end_seconds ∧
    startswith video_file "video." = true ∧
    [ExtractInfo sample_url;
     Download sample_url "/tmp/tmpk3v9x2ab/video.%(ext)s";
     FfmpegRun "/tmp/tmpk3v9x2ab/video.mp4"
       "/tmp/video-trimmer/trimmed_video_20240101_120000.mp4" 10 10]
    = [ExtractInfo sample_url;
       Download sample_url "/tmp/tmpk3v9x2ab/video.%(ext)s";
       FfmpegRun (path_join sample_tmp video_file)
         "/tmp/video-trimmer/trimmed_video_20240101_120000.mp4" start_seconds
         (end_seconds - start_seconds)].
Proof.
  destruct (X3_file_response_sound (sample_env probe_100s download_ok ffmpeg_ok)
              (sample_request "00:00:10" "00:00:20") empty_state
              (trim_video (sample_env probe_100s download_ok ffmpeg_ok)
                 (sample_request "00:00:10" "00:00:20") empty_state).2
              (file_response (sample_env probe_100s download_ok ffmpeg_ok)))
    as [_ Hsound].
  - vm_compute. reflexivity.
  - split; [reflexivity|]. exact Hsound.
Defined.

(** X4: a request answered with a 400 has had no effect on the file
    system (not even the output directory is created) and has made no
    tool call beyond the metadata probe. *)
Theorem X4_client_error_no_side_effect (E : environment)
  (request : VideoRequest) (st st' : state) (detail : string) :
  trim_video E request st = (Raise (HTTPException 400 detail), st') →
  st_fs st' = st_fs st ∧
  (st_log st' = st_log st ∨
   st_log st' = st_log st ++ [ExtractInfo (url request)]).
Proof.
  intros Hrun. pose proof (trim_video_cases E request st) as Hcase.
  rewrite Hrun in Hcase. simpl in Hcase.
  inversion Hcase; subst; simpl; auto.
Qed.

Lemma X4_client_error_no_side_effect_witness :
  st_fs (state_with_output (old_files 3)) = st_fs (state_with_output (old_files 3)) ∧
  (st_log (log_event (ExtractInfo sample_url) (state_with_output (old_files 3)))
   = st_log (state_with_output (old_files 3)) ∨
   st_log (log_event (ExtractInfo sample_url) (state_with_output (old_files 3)))
   = st_log (state_with_output (old_files 3)) ++ [ExtractInfo sample_url]).
Proof.
  apply (X4_client_error_no_side_effect
           (sample_env probe_100s download_ok ffmpeg_ok)
           (sample_request "00:00:10" "00:02:00")
           (state_with_output (old_files 3))
           (log_event (ExtractInfo sample_url) (state_with_output (old_files 3)))
           "End time exceeds video duration (100 seconds)").
  vm_compute. reflexivity.
Defined.

Section FirstMatch.

Lemma downloaded_file_first (listing : list dirent) before video_file after :
  d_name <$> listing = before ++ video_file :: after →
  startswith video_file "video." = true →
  (∀ g, g ∈ before → startswith g "video." = false) →
  downloaded_file listing = Some video_file.
Proof.
  unfold downloaded_file. intros -> Hpre Hbefore.
  induction before as [|g before IH]; simpl.
  - by rewrite Hpre.
  - rewrite (Hbefore g) by by left. apply IH. intros g' Hg'. apply Hbefore.
    by right.
Qed.

End FirstMatch.

(** X5: a request that passes validation, whose download returns leaving
    a file named [video.*] and whose trim returns, gets the file response;
    the tools were called in order with the parsed offset and duration,
    and when the output directory then holds at most 10 entries nothing
    is removed: the file system is as the trim tool left it, less the
    temporary directory. *)
Theorem X5_trim_video_success (E : environment) (request : VideoRequest)
  (st : state) (start_seconds end_seconds : Z)
  (fs1 fs2 : gmap string (list dirent)) (listing results : list dirent)
  (video_file : string) :
  passes_validation E request start_seconds end_seconds →
  let st1 := state_before_orchestration E request st in
  let tmp := mkdtemp E (st_fs st1) in
  let outtmpl := path_join tmp "video.%(ext)s" in
  ydl_download E (url request) outtmpl (<[tmp := []]> (st_fs st1)) = (Done tt, fs1) →
  fs1 !! tmp = Some listing →
  downloaded_file listing = Some video_file →
  ffmpeg_run E (path_join tmp video_file) (output_path E) start_seconds
    (end_seconds - start_seconds) fs1 = (Done tt, fs2) →
  delete tmp fs2 !! output_dir E = Some results →
  (length results ≤ 10)%nat →
  trim_video E request st =
    (Return (file_response E),
     {| st_fs := delete tmp fs2;
        st_log := st_log st ++
                  [ExtractInfo (url request); Download (url request) outtmpl;
                   FfmpegRun (path_join tmp video_file) (output_path E)
                     start_seconds (end_seconds - start_seconds)] |}).
Proof.
  intros Hval st1 tmp outtmpl Hdl Hls Hfile Hff Hout Hlen.
  pose proof Hval as (Hs & He & _).
  pose proof (orchestrator_trims E _ _ _ _ st1 _ _ _ _ _ _ _ Hdl Hls Hfile Hs He Hff)
    as Hrun.
  simpl in Hrun. fold tmp outtmpl in Hrun.
  rewrite (trim_video_orchestrator_returns E _ st _ _ _ Hval Hrun).
  unfold bind. rewrite (clean_up_old_files_small E _ _ results); [|done|done].
  unfold ret, file_response. subst st1.
  by rewrite state_before_orchestration_log, <- app_assoc.
Qed.

Lemma X5_trim_video_success_witness :
  trim_video (sample_env probe_100s download_ok ffmpeg_ok)
    (sample_request "00:00:10" "00:00:20") (state_with_output (old_files 9))
  = (Return {| path := "/tmp/video-trimmer/trimmed_video_20240101_120000.mp4";
               media_type := "video/mp4";
               filename := "trimmed_video_20240101_120000.mp4" |},
     {| st_fs := {[ "/tmp/video-trimmer" :=
                      old_files 9 ++ [Dirent sample_out_name 1704110600 true] ]};
        st_log := [ExtractInfo sample_url;
                   Download sample_url "/tmp/tmpk3v9x2ab/video.%(ext)s";
                   FfmpegRun "/tmp/tmpk3v9x2ab/video.mp4"
                     "/tmp/video-trimmer/trimmed_video_20240101_120000.mp4"
                     10 10] |}).
Proof.
  rewrite (X5_trim_video_success (sample_env probe_100s download_ok ffmpeg_ok)
             (sample_request "00:00:10" "00:00:20")
             (state_with_output (old_files 9)) 10 20
             (write_file sample_tmp "video.mp4" 1704110500
                (<[sample_tmp := []]> {[ "/tmp/video-trimmer" := old_files 9 ]}))
             (write_file "/tmp/video-trimmer" sample_out_name 1704110600
                (write_file sample_tmp "video.mp4" 1704110500
                   (<[sample_tmp := []]> {[ "/tmp/video-trimmer" := old_files 9 ]})))
             [Dirent "video.mp4" 1704110500 true]
             (old_files 9 ++ [Dirent sample_out_name 1704110600 true])
             "video.mp4").
  - vm_compute. reflexivity.
  - split; [reflexivity|]. split; [reflexivity|]. split; [|lia].
    exists {[ "title" := PStr "A video"; "duration" := PInt 100 ]}, 100.
    split; [reflexivity|]. split; [reflexivity|lia].
  - vm_compute. reflexivity.
  - vm_compute. reflexivity.
  - reflexivity.
  - reflexivity.
  - vm_compute. reflexivity.
  - vm_compute. lia.
Defined.

(** X6: the orchestrator parses the times only after the download.  Called
    with a malformed time it still downloads, then raises
    [VideoProcessingError] without calling the trim tool, and removes the
    temporary directory with the file just downloaded. *)
Theorem X6_orchestrator_parses_after_download (E : environment)
  (u start_time end_time out : string) (st : state)
  (fs1 : gmap string (list dirent)) (listing : list dirent) (video_file : string) :
  let tmp := mkdtemp E (st_fs st) in
  let outtmpl := path_join tmp "video.%(ext)s" in
  ydl_download E u outtmpl (<[tmp := []]> (st_fs st)) = (Done tt, fs1) →
  fs1 !! tmp = Some listing →
  downloaded_file listing = Some video_file →
  malformed_time E start_time ∨ malformed_time E end_time →
  ∃ msg,
    download_and_trim_video E u start_time end_time out st =
      (Raise (VideoProcessingError msg),
       {| st_fs := delete tmp fs1; st_log := st_log st ++ [Download u outtmpl] |}).
Proof.
  intros tmp outtmpl Hdl Hls Hfile Hbad.
  pose proof (py_not_downloaded_file _ _ Hfile) as Hnot.
  unfold download_and_trim_video, with_TemporaryDirectory, try_except, bind,
    call_download, scandir, lift.
  simpl. fold tmp. fold outtmpl. rewrite Hdl. simpl. rewrite Hls.
  unfold downloaded_file in Hfile. rewrite Hfile, Hnot. simpl.
  destruct (time_to_seconds_cases E start_time)
    as [(H & M & S & Hwf & ->)|[msg ->]]; [|simpl; eauto].
  destruct Hbad as [Hbad|Hbad]; [by destruct (Hbad H M S)|].
  destruct (time_to_seconds_malformed E _ Hbad) as [msg ->]. simpl. eauto.
Qed.

Lemma X6_orchestrator_parses_after_download_witness :
  ∃ msg,
    download_and_trim_video (sample_env probe_100s download_ok ffmpeg_ok)
      sample_url "00:00:10" "soon"
      "/tmp/video-trimmer/trimmed_video_20240101_120000.mp4" empty_state
    = (Raise (VideoProcessingError msg),
       {| st_fs := delete sample_tmp
                     (write_file sample_tmp "video.mp4" 1704110500
                        (<[sample_tmp := []]> ∅));
          st_log := [Download sample_url "/tmp/tmpk3v9x2ab/video.%(ext)s"] |}).
Proof.
  apply (X6_orchestrator_parses_after_download
           (sample_env probe_100s download_ok ffmpeg_ok)
           sample_url "00:00:10" "soon"
           "/tmp/video-trimmer/trimmed_video_20240101_120000.mp4" empty_state
           (write_file sample_tmp "video.mp4" 1704110500 (<[sample_tmp := []]> ∅))
           [Dirent "video.mp4" 1704110500 true] "video.mp4").
  - reflexivity.
  - vm_compute. reflexivity.
  - reflexivity.
  - right. intros H M S (h & m & s & Hsplit & _). vm_compute in Hsplit.
    discriminate Hsplit.
Defined.

(** X7: among several files of the temporary directory the trim tool is
    given the first one, in listing order, whose name starts with
    [video.], whatever follows the prefix (a partial download listed
    first is taken). *)
Theorem X7_first_prefixed_file_is_trimmed (E : environment)
  (u start_time end_time out : string) (st : state)
  (fs1 fs2 : gmap string (list dirent)) (listing : list dirent)
  (before after : list string) (video_file : string)
  (start_seconds end_seconds : Z) (r : tool_result unit) :
  let tmp := mkdtemp E (st_fs st) in
  let outtmpl := path_join tmp "video.%(ext)s" in
  ydl_download E u outtmpl (<[tmp := []]> (st_fs st)) = (Done tt, fs1) →
  fs1 !! tmp = Some listing →
  d_name <$> listing = before ++ video_file :: after →
  startswith video_file "video." = true →
  (∀ g, g ∈ before → startswith g "video." = false) →
  time_to_seconds E start_time = Return start_seconds →
  time_to_seconds E end_time = Return end_seconds →
  ffmpeg_run E (path_join tmp video_file) out start_seconds
    (end_seconds - start_seconds) fs1 = (r, fs2) →
  st_log (download_and_trim_video E u start_time end_time out st).2
  = st_log st ++
    [Download u outtmpl;
     FfmpegRun (path_join tmp video_file) out start_seconds
       (end_seconds - start_seconds)].
Proof.
  intros tmp outtmpl Hdl Hls Hnames Hpre Hbefore Hs He Hff.
  pose proof (downloaded_file_first _ _ _ _ Hnames Hpre Hbefore) as Hfile.
  by rewrite (orchestrator_trims E _ _ _ _ _ _ _ _ _ _ _ _ Hdl Hls Hfile Hs He Hff).
Qed.

Lemma X7_first_prefixed_file_is_trimmed_witness :
  st_log (download_and_trim_video
            (sample_env probe_100s download_two_files ffmpeg_ok)
            sample_url "00:00:10" "00:00:20"
            "/tmp/video-trimmer/trimmed_video_20240101_120000.mp4" empty_state).2
  = [Download sample_url "/tmp/tmpk3v9x2ab/video.%(ext)s";
     FfmpegRun "/tmp/tmpk3v9x2ab/video.f137.mp4.part"
       "/tmp/video-trimmer/trimmed_video_20240101_120000.mp4" 10 10].
Proof.
  apply (X7_first_prefixed_file_is_trimmed
           (sample_env probe_100s download_two_files ffmpeg_ok)
           sample_url "00:00:10" "00:00:20"
           "/tmp/video-trimmer/trimmed_video_20240101_120000.mp4" empty_state
           (download_two_files (<[sample_tmp := []]> ∅)).2
           (ffmpeg_ok (download_two_files (<[sample_tmp := []]> ∅)).2).2
           [Dirent "video.f137.mp4.part" 1704110500 true;
            Dirent "video.mp4" 1704110501 true]
           [] ["video.mp4"] "video.f137.mp4.part" 10 20 (Done tt)).
  - reflexivity.
  - vm_compute. reflexivity.
  - reflexivity.
  - reflexivity.
  - intros g Hg. by apply elem_of_nil in Hg.
  - reflexivity.
  - reflexivity.
  - reflexivity.
Defined.

(** X8: the info endpoint makes exactly one probe and leaves the file
    system alone.  It returns the three fields when the tool returns
    metadata, and answers 400 both when the tool raises and when the tool
    returns nothing ([None], its answer to a swallowed extraction error),
    the detail then carrying the text of the attribute error. *)
Theorem X8_get_info_outcomes (E : environment) (u : string) (st : state) :
  (get_info E u st).2 = log_event (ExtractInfo u) st ∧
  match extract_info E u with
  | Done (Some d) =>
      (get_info E u st).1
      = Return {| title := default (PStr "Unknown Title") (d !! "title");
                  duration := default (PInt 0) (d !! "duration");
                  thumbnail := default (PStr "") (d !! "thumbnail") |}
  | Done None =>
      (get_info E u st).1
      = Raise (HTTPException 400
                 ("Error fetching video info: " +:+ error_text E NoneHasNoGet))
  | Fails text =>
      (get_info E u st).1
      = Raise (HTTPException 400 ("Error fetching video info: " +:+ text))
  end.
Proof.
  unfold get_info. destruct (extract_info E u) as [[d|]|text] eqn:Hx.
  - by rewrite (get_video_info_Done E _ _ _ Hx).
  - by rewrite (get_video_info_None E _ _ Hx).
  - by rewrite (get_video_info_Fails E _ _ _ Hx).
Qed.

(** X9: the fallback 0 applies only to a missing key.  When the metadata
    has a duration that is not an integer (a [None] under the key, a
    string), the comparison with the end time raises a [TypeError] that
    nothing catches: the trim endpoint fails with a 500 after the probe,
    not with a 400. *)
Theorem X9_non_integer_duration_unhandled (E : environment)
  (request : VideoRequest) (st : state) (start_seconds end_seconds : Z)
  (d : gmap string pyval) (v : pyval) :
  time_to_seconds E (start_time request) = Return start_seconds →
  time_to_seconds E (end_time request) = Return end_seconds →
  extract_info E (url request) = Done (Some d) →
  d !! "duration" = Some v →
  (∀ n, v ≠ PInt n) →
  trim_video E request st =
    (Raise (PyErr TypeError (error_text E (GtNotSupported v))),
     log_event (ExtractInfo (url request)) st) ∧
  exn_status (PyErr TypeError (error_text E (GtNotSupported v))) = 500.
Proof.
  intros Hs He Hx Hv Hnot. split; [|done].
  rewrite (trim_video_duration_not_int E _ st _ _ _ Hs He Hx); rewrite Hv; done.
Qed.

Lemma X9_non_integer_duration_unhandled_witness :
  trim_video
    (sample_env (Done (Some {[ "title" := PStr "Live"; "duration" := PNone ]}))
       download_ok ffmpeg_ok)
    (sample_request "00:00:10" "00:00:20") empty_state
  = (Raise (PyErr TypeError
              "'>' not supported between instances of 'int' and 'NoneType'"),
     log_event (ExtractInfo sample_url) empty_state).
Proof.
  apply (X9_non_integer_duration_unhandled
           (sample_env (Done (Some {[ "title" := PStr "Live"; "duration" := PNone ]}))
              download_ok ffmpeg_ok)
           (sample_request "00:00:10" "00:00:20") empty_state 10 20
           {[ "title" := PStr "Live"; "duration" := PNone ]} PNone);
    [reflexivity|reflexivity|reflexivity|reflexivity|discriminate].
Defined.


(** X11: the retention pass does not spare the file the request has just
    produced.  When that file is not among the last 10 of the listing
    sorted by time (ten other entries carry later times) and can be
    removed, the endpoint still returns the file response, for a path
    where no file is left. *)
Theorem X11_retention_may_remove_new_file (E : environment)
  (request : VideoRequest) (st st2 : state) (start_seconds end_seconds : Z)
  (listing : list dirent) (new : dirent) :
  passes_validation E request start_seconds end_seconds →
  download_and_trim_video E (url request) (start_time request)
    (end_time request) (output_path E) (state_before_orchestration E request st)
  = (Return tt, st2) →
  st_fs st2 !! output_dir E = Some listing →
  NoDup (d_name <$> listing) →
  (10 < length listing)%nat →
  new ∈ listing →
  d_name new = output_filename E →
  d_removable new = true →
  new ∉ last10 (sorted_by_ctime listing) →
  ∃ st',
    trim_video E request st = (Return (file_response E), st') ∧
    ¬ file_at (st_fs st') (output_dir E) (output_filename E).
Proof.
  intros Hval Hrun Hls Hnd Hlen Hnew Hname Hrem Hold.
  rewrite (trim_video_orchestrator_returns E _ st _ _ _ Hval Hrun).
  unfold bind. rewrite (clean_up_old_files_spec E _ _ _ Hls Hnd Hlen).
  eexists. split; [reflexivity|].
  intros (kept & Hkept & Hin). simpl in Hkept.
  rewrite lookup_insert_eq in Hkept. injection Hkept as <-.
  apply list_elem_of_fmap in Hin as (e & Hename & He).
  apply list_elem_of_filter in He as [Hsurv He].
  assert (e = new) as -> by (apply (NoDup_names_eq listing); congruence).
  destruct Hsurv as [Hfalse|Hnot]; [congruence|].
  apply Hold. by apply not_stale_last10.
Qed.

Lemma X11_retention_may_remove_new_file_witness :
  ∃ st',
    trim_video (sample_env probe_100s download_ok ffmpeg_ok)
      (sample_request "00:00:10" "00:00:20") (state_with_output (later_files 10))
    = (Return (file_response (sample_env probe_100s download_ok ffmpeg_ok)), st') ∧
    ¬ file_at (st_fs st')
        (output_dir (sample_env probe_100s download_ok ffmpeg_ok))
        (output_filename (sample_env probe_100s download_ok ffmpeg_ok)).
Proof.
  apply (X11_retention_may_remove_new_file
           (sample_env probe_100s download_ok ffmpeg_ok)
           (sample_request "00:00:10" "00:00:20")
           (state_with_output (later_files 10))
           (download_and_trim_video (sample_env probe_100s download_ok ffmpeg_ok)
              sample_url "00:00:10" "00:00:20"
              "/tmp/video-trimmer/trimmed_video_20240101_120000.mp4"
              (state_before_orchestration
                 (sample_env probe_100s download_ok ffmpeg_ok)
                 (sample_request "00:00:10" "00:00:20")
                 (state_with_output (later_files 10)))).2
           10 20
           (later_files 10 ++ [Dirent sample_out_name 1704110600 true])
           (Dirent sample_out_name 1704110600 true)).
  - split; [reflexivity|]. split; [reflexivity|]. split; [|lia].
    exists {[ "title" := PStr "A video"; "duration" := PInt 100 ]}, 100.
    split; [reflexivity|]. split; [reflexivity|lia].
  - vm_compute. reflexivity.
  - vm_compute. reflexivity.
  - apply (bool_decide_unpack _). vm_compute. exact I.
  - vm_compute. lia.
  - apply elem_of_app. right. apply list_elem_of_here.
  - reflexivity.
  - reflexivity.
  - apply (bool_decide_unpack _). vm_compute. exact I.
Defined.

(** ** Running the retention pass again *)

Section Idempotence.

Context (E : environment).

Lemma insert_by_ctime_front x l :
  Forall (ctime_le x) l → insert_by_ctime x l = x :: l.
Proof.
  destruct l as [|y l]; [done|]. intros [Hxy _]%Forall_cons. simpl.
  by rewrite (proj2 (Z.leb_le _ _) Hxy).
Qed.

(** Sorting commutes with filtering: the sort is by insertion into a
    sorted list, and stable. *)
Lemma filter_insert_by_ctime (P : dirent → Prop) `{!∀ e, Decision (P e)} x l :
  StronglySorted ctime_le l →
  filter P (insert_by_ctime x l)
  = if decide (P x) then insert_by_ctime x (filter P l) else filter P l.
Proof.
  induction 1 as [|y l Hsorted IH Hall]; simpl.
  - rewrite filter_cons, filter_nil. by case_decide.
  - destruct (d_ctime x <=? d_ctime y) eqn:Hle.
    + apply Z.leb_le in Hle. rewrite (filter_cons _ x).
      case_decide; [|done].
      rewrite insert_by_ctime_front; [done|].
      apply Forall_forall. intros z Hz.
      apply list_elem_of_filter in Hz as [_ Hz].
      apply elem_of_cons in Hz as [->|Hz]; [done|].
      rewrite Forall_forall in Hall. specialize (Hall z Hz).
      unfold ctime_le in *. lia.
    + rewrite (filter_cons _ y), IH, (filter_cons _ y).
      repeat case_decide; simpl; try done. by rewrite Hle.
Qed.

Lemma sorted_by_ctime_filter (P : dirent → Prop) `{!∀ e, Decision (P e)} l :
  sorted_by_ctime (filter P l) = filter P (sorted_by_ctime l).
Proof.
  induction l as [|x l IH]; [done|]. simpl.
  rewrite filter_insert_by_ctime by apply sorted_by_ctime_sorted.
  rewrite filter_cons. case_decide; simpl; by rewrite IH.
Qed.

Lemma last10_retained listing :
  NoDup (d_name <$> listing) → (10 < length listing)%nat →
  last10 (sorted_by_ctime (retained listing)) = last10 (sorted_by_ctime listing).
Proof.
  intros Hnd Hlen. unfold retained. rewrite sorted_by_ctime_filter.
  unfold last10 at 2.
  set (S := sorted_by_ctime listing).
  set (k := (length S - 10)%nat).
  assert (length S = length listing) as HS by apply sorted_by_ctime_length.
  rewrite <- (take_drop k S) at 1. rewrite filter_app.
  rewrite (filter_all _ (drop k S)).
  - unfold last10. apply drop_app_length'.
    rewrite length_app, length_drop. lia.
  - intros e He. right. apply not_stale_last10; [done| |done].
    rewrite <- (sorted_by_ctime_perm listing).
    eapply elem_of_sublist; [exact He|apply sublist_drop].
Qed.

Lemma retained_idempotent listing :
  NoDup (d_name <$> listing) → (10 < length listing)%nat →
  (10 < length (retained listing))%nat →
  retained (retained listing) = retained listing.
Proof.
  intros Hnd Hlen Hlen'. unfold retained at 1. apply filter_all.
  intros e He. destruct (d_removable e) eqn:Hrem; [|by left].
  right. apply not_stale_last10; [by apply NoDup_names_filter|done|].
  rewrite last10_retained by done.
  unfold retained in He. apply list_elem_of_filter in He as [[Hf|Hnot] He];
    [congruence|].
  by apply not_stale_last10.
Qed.

End Idempotence.

(** X12: the retention pass is idempotent: run again right after itself
    it changes nothing, also when some removals failed and more than 10
    entries were left. *)
Theorem X12_retention_idempotent (E : environment) (dir : string) (st : state)
  (listing : list dirent) :
  st_fs st !! dir = Some listing →
  NoDup (d_name <$> listing) →
  (clean_up_old_files E dir ;;; clean_up_old_files E dir) st
  = clean_up_old_files E dir st.
Proof.
  intros Hls Hnd. unfold bind.
  destruct (decide (length listing ≤ 10)%nat) as [Hsmall|Hbig].
  { rewrite (clean_up_old_files_small E _ _ _ Hls Hsmall).
    by rewrite (clean_up_old_files_small E _ _ _ Hls Hsmall). }
  assert (10 < length listing)%nat as Hlen by lia.
  rewrite (clean_up_old_files_spec E _ _ _ Hls Hnd Hlen). cbv beta iota.
  fold (retained listing).
  set (st1 := set_fs (<[dir := retained listing]> (st_fs st)) st).
  assert (st_fs st1 !! dir = Some (retained listing)) as Hls1
    by apply lookup_insert_eq.
  destruct (decide (length (retained listing) ≤ 10)%nat) as [Hsmall1|Hbig1].
  { by rewrite (clean_up_old_files_small E _ _ _ Hls1 Hsmall1). }
  rewrite (clean_up_old_files_spec E _ _ _ Hls1); [|by apply NoDup_names_filter|lia].
  fold (retained (retained listing)).
  rewrite retained_idempotent by (done || lia).
  subst st1. unfold set_fs. simpl. by rewrite insert_insert_eq.
Qed.

Lemma X12_retention_idempotent_witness :
  (clean_up_old_files (sample_env probe_100s download_ok ffmpeg_ok)
     "/tmp/video-trimmer" ;;;
   clean_up_old_files (sample_env probe_100s download_ok ffmpeg_ok)
     "/tmp/video-trimmer")
    (state_with_output (Dirent "archive" 1703000000 false :: old_files 12))
  = clean_up_old_files (sample_env probe_100s download_ok ffmpeg_ok)
      "/tmp/video-trimmer"
      (state_with_output (Dirent "archive" 1703000000 false :: old_files 12)).
Proof.
  apply (X12_retention_idempotent (sample_env probe_100s download_ok ffmpeg_ok)
           "/tmp/video-trimmer"
           (state_with_output (Dirent "archive" 1703000000 false :: old_files 12))
           (Dirent "archive" 1703000000 false :: old_files 12)).
  - reflexivity.
  - apply (bool_decide_unpack _). vm_compute. exact I.
Defined.

(** ** Paths *)

Section Paths.

Lemma rev_app_append p w acc :
  String.rev_app (p +:+ w) acc = String.rev_app w (String.rev_app p acc).
Proof.
  revert acc. induction p as [|c p IH]; intros acc; [done|].
  change (String c p +:+ w) with (String c (p +:+ w)). simpl. apply IH.
Qed.

Lemma append_not_empty p c w : p +:+ String c w ≠ "".
Proof. destruct p; discriminate. Qed.

(** Joining a relative name to a directory that does not end in a
    slash. *)
Lemma path_join_plain a b :
  startswith b "/" = false → a ≠ "" → startswith (String.rev a) "/" = false →
  path_join a b = a +:+ "/" +:+ b.
Proof.
  intros Hb Ha Hrev. unfold path_join. rewrite Hb, Hrev.
  destruct (String.eqb a "") eqn:Heq; [|done].
  by apply String.eqb_eq in Heq.
Qed.

End Paths.

(** X13: whatever the temporary root and the timestamp are, the output
    path is the output directory, a slash and the file name
    [trimmed_video_<timestamp>.mp4], and the output directory is the
    folder [video-trimmer] under the temporary root. *)
Theorem X13_output_path_shape (E : environment) :
  output_path E = output_dir E +:+ "/" +:+ output_filename E ∧
  output_filename E = "trimmed_video_" +:+ strftime_now E +:+ ".mp4" ∧
  (output_dir E = "video-trimmer" ∧ gettempdir E = "" ∨
   output_dir E = gettempdir E +:+ "video-trimmer" ∨
   output_dir E = gettempdir E +:+ "/video-trimmer").
Proof.
  assert (output_dir E = "video-trimmer" ∧ gettempdir E = "" ∨
          output_dir E = gettempdir E +:+ "video-trimmer" ∨
          output_dir E = gettempdir E +:+ "/video-trimmer") as Hdir.
  { unfold output_dir, path_join.
    change (startswith "video-trimmer" "/") with false. cbv iota.
    destruct (String.eqb (gettempdir E) "") eqn:Heq.
    - left. by apply String.eqb_eq in Heq.
    - destruct (startswith _ "/"); auto. }
  split; [|split; [done|exact Hdir]].
  unfold output_path. apply path_join_plain.
  - reflexivity.
  - destruct Hdir as [[-> _]|[->| ->]]; [done|apply append_not_empty..].
  - unfold String.rev.
    destruct Hdir as [[-> _]|[->| ->]]; [done|by rewrite rev_app_append..].
Qed.

(** ** Times written with digits *)

Section DigitTimes.

Lemma digit_char_not_colon d :
  (d < 10)%N → Ascii.eqb (digit_char d) ":" = false.
Proof.
  intros Hd.
  assert (d = 0 ∨ d = 1 ∨ d = 2 ∨ d = 3 ∨ d = 4 ∨ d = 5 ∨ d = 6 ∨ d = 7 ∨
          d = 8 ∨ d = 9)%N as Hcases by lia.
  repeat destruct Hcases as [->|Hcases]; try subst d; by vm_compute.
Qed.

Lemma split_digits_last ds :
  Forall (λ d, (d < 10)%N) ds →
  split ":" (digits_string ds) = [digits_string ds].
Proof.
  induction 1 as [|d ds Hd Hall IH]; [done|]. simpl.
  by rewrite (digit_char_not_colon d Hd), IH.
Qed.

Lemma split_digits_colon ds rest :
  Forall (λ d, (d < 10)%N) ds →
  split ":" (digits_string ds +:+ String ":" rest)
  = digits_string ds :: split ":" rest.
Proof.
  induction 1 as [|d ds Hd Hall IH]; [done|].
  change (digits_string (d :: ds) +:+ String ":" rest)
    with (String (digit_char d) (digits_string ds +:+ String ":" rest)).
  simpl. by rewrite (digit_char_not_colon d Hd), IH.
Qed.

End DigitTimes.

(** X14: the parser puts no bound on any field.  For three runs of
    digits (1 to 640 digits each) it returns
    [hours * 3600 + minutes * 60 + seconds] of their decimal values, also
    when the minutes or the seconds are 60 or more, so that different
    strings denote the same offset. *)
Theorem X14_digit_fields_unbounded (E : environment) (hs ms ss : list N) :
  digit_run hs → digit_run ms → digit_run ss →
  time_to_seconds E
    (time_string (digits_string hs) (digits_string ms) (digits_string ss))
  = Return (Z.of_N (decimal_value hs) * 3600 + Z.of_N (decimal_value ms) * 60
            + Z.of_N (decimal_value ss)).
Proof.
  intros (Hh1 & Hh2 & Hh3) (Hm1 & Hm2 & Hm3) (Hs1 & Hs2 & Hs3).
  apply time_to_seconds_well_formed.
  exists (digits_string hs), (digits_string ms), (digits_string ss).
  split.
  - unfold time_string.
    change (":" +:+ digits_string ms +:+ ":" +:+ digits_string ss)
      with (String ":" (digits_string ms +:+ String ":" (digits_string ss))).
    by rewrite !split_digits_colon, split_digits_last.
  - unfold integer_field.
    split; [|split]; by apply py_int_digits.
Qed.

Lemma X14_digit_fields_unbounded_witness :
  time_to_seconds (sample_env probe_100s download_ok ffmpeg_ok) "00:90:75"
  = Return 5475 ∧
  time_to_seconds (sample_env probe_100s download_ok ffmpeg_ok) "01:31:15"
  = Return 5475.
Proof.
  split.
  - apply (X14_digit_fields_unbounded
             (sample_env probe_100s download_ok ffmpeg_ok)
             [0; 0]%N [9; 0]%N [7; 5]%N);
      (split; [done|]; split; [repeat constructor; lia|simpl; lia]).
  - apply (X14_digit_fields_unbounded
             (sample_env probe_100s download_ok ffmpeg_ok)
             [0; 1]%N [3; 1]%N [1; 5]%N);
      (split; [done|]; split; [repeat constructor; lia|simpl; lia]).
Defined.

(** X15: [VideoProcessingError] is answered only to a request that passed
    the three checks, and only after the probe and a download were made;
    the temporary directory of that download is gone when the error is
    answered. *)
Theorem X15_processing_error_after_download (E : environment)
  (request : VideoRequest) (st st' : state) (msg : string) :
  trim_video E request st = (Raise (VideoProcessingError msg), st') →
  ∃ start_seconds end_seconds,
    passes_validation E request start_seconds end_seconds ∧
    let tmp := mkdtemp E (st_fs (state_before_orchestration E request st)) in
    st_fs st' !! tmp = None ∧
    ∃ rest,
      st_log st' = st_log st ++
        ExtractInfo (url request)
        :: Download (url request) (path_join tmp "video.%(ext)s") :: rest.
Proof.
  intros Hrun. pose proof (trim_video_cases E request st) as Hcase.
  rewrite Hrun in Hcase. simpl in Hcase.
  inversion Hcase as [ | | | | | s e msg' st2 Hval Horun | | ]; subst.
  exists s, e. split; [done|]. cbv zeta.
  pose proof (orchestrator_outcomes E (url request) (start_time request)
                (end_time request) (output_path E)
                (state_before_orchestration E request st)) as [_ Htmp].
  pose proof (orchestrator_log E (url request) (start_time request)
                (end_time request) (output_path E)
                (state_before_orchestration E request st)) as Horch.
  cbv zeta in Horch. rewrite Horun in Htmp, Horch. simpl in Htmp, Horch.
  rewrite state_before_orchestration_log in Horch.
  split; [done|].
  destruct Horch as [[-> _]|(vf & ss & es & _ & _ & _ & ->)];
    rewrite <- app_assoc; eauto.
Qed.

Lemma X15_processing_error_after_download_witness :
  ∃ start_seconds end_seconds,
    passes_validation (sample_env probe_100s download_nothing ffmpeg_ok)
      (sample_request "00:00:10" "00:00:20") start_seconds end_seconds ∧
    (trim_video (sample_env probe_100s download_nothing ffmpeg_ok)
       (sample_request "00:00:10" "00:00:20") empty_state).2.(st_fs)
      !! sample_tmp = None ∧
    ∃ rest,
      st_log (trim_video (sample_env probe_100s download_nothing ffmpeg_ok)
                (sample_request "00:00:10" "00:00:20") empty_state).2
      = ExtractInfo sample_url
        :: Download sample_url "/tmp/tmpk3v9x2ab/video.%(ext)s" :: rest.
Proof.
  apply (X15_processing_error_after_download
           (sample_env probe_100s download_nothing ffmpeg_ok)
           (sample_request "00:00:10" "00:00:20") empty_state
           (trim_video (sample_env probe_100s download_nothing ffmpeg_ok)
              (sample_request "00:00:10" "00:00:20") empty_state).2
           "Video file not found after download").
  vm_compute. reflexivity.
Defined.

(** X16: the 400 error "Invalid time format" is answered exactly when one
    of the two times is malformed; no later failure is reported under
    that detail. *)
Theorem X16_invalid_time_format_iff (E : environment) (request : VideoRequest)
  (st : state) :
  (trim_video E request st).1 = Raise InvalidTimeFormat ↔
  malformed_time E (start_time request) ∨ malformed_time E (end_time request).
Proof.
  split.
  - intros Hrun. pose proof (trim_video_cases E request st) as Hcase.
    rewrite Hrun in Hcase.
    inversion Hcase as [ Hbad | | | | | | | ]; done.
  - intros Hbad. by rewrite trim_video_malformed.
Qed.

Lemma X16_invalid_time_format_iff_witness :
  (trim_video (sample_env probe_100s download_ok ffmpeg_ok)
     (sample_request "00:00:10" "00:00:20") empty_state).1
  ≠ Raise InvalidTimeFormat.
Proof.
  intros Hrun.
  apply (X16_invalid_time_format_iff (sample_env probe_100s download_ok ffmpeg_ok)
           (sample_request "00:00:10" "00:00:20") empty_state) in Hrun.
  destruct Hrun as [Hbad|Hbad].
  - apply (Hbad 0 0 10). exists "00", "00", "10". repeat split; reflexivity.
  - apply (Hbad 0 0 20). exists "00", "00", "20". repeat split; reflexivity.
Defined.
